(** * doc-to-jira: a shallow embedding of the Jira client and its batch driver

    The development follows the two source modules:

    - [doc_to_jira] embeds the class [DocToJira] of [doc_to_jira.py]:
      configuration validation, the connection retry loop, issue input
      validation, the issue creation retry loop, and the two best-effort
      probes;
    - [main_jira] embeds the per-entry loop of [run_jira_from_json] of
      [main_jira.py] and the function around it.

    Modelling choices.

    - Python [str] is Stdlib's [string], one [ascii] per character (code
      points below 256); [str.strip] removes the characters Python regards as
      white space in that range.
    - Python [int] is [Z].  [retry_delay] is a finite Python [float]; its
      value is an exact rational [Q], and so is a delay: the code computes
      [retry_delay * (2 ** attempt)], a scaling by a power of two, which is
      exact on floats.  The two places where the floats stop are modelled:
      [2 ** attempt] does not convert to a float from [2 ** 1024] on, and
      [time.sleep] does not take a length of 2^63 nanoseconds or more, on
      either side of zero.
    - Exceptions are values of [exn]: a class, the text [str(e)] and the
      [__cause__] set by [raise ... from e].  Only instances of [Exception]
      are modelled, these are what [except Exception] catches.
    - The Jira server is an external collaborator.  It is a [Service]: each of
      its four capabilities answers from the history of everything the client
      did so far (calls and sleeps), so an answer may depend on the number of
      earlier calls, as a mock with a list of side effects does, or on the
      time that passed.
    - Effects are threaded through a small state and exception monad [M]; the
      state of the client code is the trace of calls and sleeps, the state of
      the batch loop adds the shared [results] dictionary.
    - Logging and printing do not influence control flow and are left out. *)

From Stdlib Require Import String Ascii List ZArith QArith Lia Bool.
From Stdlib Require Import DecimalString Sorted.
Import ListNotations.

Local Open Scope Z_scope.
Local Open Scope list_scope.
Local Open Scope string_scope.

(* ------------------------------------------------------------------------- *)
(** ** Python strings *)

Module PyStr.

(** [str.isspace] on one character, for code points below 256: TAB..CR,
    FS..US, SPACE, NEL and NBSP. *)
Definition isspace (c : ascii) : bool :=
  let n := N_of_ascii c in
  (((9 <=? n) && (n <=? 13)) || ((28 <=? n) && (n <=? 32))
   || (n =? 133) || (n =? 160))%N.

Fixpoint lstrip (s : string) : string :=
  match s with
  | EmptyString => EmptyString
  | String c s' => if isspace c then lstrip s' else s
  end.

Fixpoint rstrip (s : string) : string :=
  match s with
  | EmptyString => EmptyString
  | String c s' =>
      match rstrip s' with
      | EmptyString => if isspace c then EmptyString else String c EmptyString
      | r => String c r
      end
  end.

(** [s.strip()] *)
Definition strip (s : string) : string := rstrip (lstrip s).

(** [sep.join(ls)] *)
Definition join (sep : string) (ls : list string) : string :=
  String.concat sep ls.

(** [len(s)] as a Python integer *)
Definition len (s : string) : Z := Z.of_nat (String.length s).

(** [str(z)] for an integer *)
Definition str_of_int (z : Z) : string :=
  NilZero.string_of_int (Z.to_int z).

(** [not s] for a string *)
Definition is_empty (s : string) : bool :=
  match s with EmptyString => true | String _ _ => false end.

(** [sub in s] *)
Fixpoint contains (sub s : string) : bool :=
  prefix sub s ||
  match s with
  | EmptyString => false
  | String _ s' => contains sub s'
  end.

(** ["x" * n] *)
Fixpoint repeat_char (c : ascii) (n : nat) : string :=
  match n with
  | O => EmptyString
  | S n' => String c (repeat_char c n')
  end.

(** [range(stop)] *)
Definition range (stop : Z) : list Z :=
  map Z.of_nat (seq 0 (Z.to_nat stop)).

(** All characters are white space: the string is empty or blank. *)
Fixpoint blank (s : string) : bool :=
  match s with
  | EmptyString => true
  | String c s' => isspace c && blank s'
  end.

End PyStr.

(* ------------------------------------------------------------------------- *)
(** ** Exceptions and the effect monad *)

Inductive exn_class : Type :=
| JiraConnectionError
| JiraConfigurationError
| JiraIssueCreationError
| JiraValidationError
| AttributeError
| ValueError
| TypeError
| OverflowError
| OtherException (name : string).

(** An exception instance: its class, [str(e)] and [e.__cause__]. *)
#[warnings="-register-all"]
Inductive exn : Type :=
| Exception (cls : exn_class) (msg : string) (cause : option exn).

Definition exn_cls (e : exn) : exn_class :=
  match e with Exception c _ _ => c end.

(** [str(e)] *)
Definition exn_str (e : exn) : string :=
  match e with Exception _ m _ => m end.


Inductive result (A : Type) : Type :=
| Ok (a : A)
| Raise (e : exn).

Arguments Ok {A} a.
Arguments Raise {A} e.

Definition is_ok {A} (r : result A) : bool :=
  match r with Ok _ => true | Raise _ => false end.

(** A computation over a state [St] that returns or raises. *)
Definition M (St A : Type) : Type := St -> St * result A.

Definition ret {St A} (a : A) : M St A := fun s => (s, Ok a).

Definition raise {St A} (e : exn) : M St A := fun s => (s, Raise e).

Definition bind {St A B} (m : M St A) (k : A -> M St B) : M St B :=
  fun s =>
    match m s with
    | (s', Ok a) => k a s'
    | (s', Raise e) => (s', Raise e)
    end.

(** [try: m  except Exception as e: h e].  The handler runs in the state the
    body left behind; what the handler raises is not caught again. *)
Definition try_except {St A} (m : M St A) (h : exn -> M St A) : M St A :=
  fun s =>
    match m s with
    | (s', Ok a) => (s', Ok a)
    | (s', Raise e) => h e s'
    end.

(** A pure computation that may raise, inside the monad. *)
Definition lift_result {St A} (r : result A) : M St A := fun s => (s, r).

Definition bind_result {A B} (r : result A) (k : A -> result B) : result B :=
  match r with
  | Ok a => k a
  | Raise e => Raise e
  end.

Declare Scope py_scope.
Delimit Scope py_scope with py.

Notation "x <- m ;; k" := (bind m (fun x => k))
  (at level 100, m at next level, right associativity) : py_scope.
Notation "m ;; k" := (bind m (fun _ => k))
  (at level 100, right associativity) : py_scope.

Local Open Scope py_scope.

(* ------------------------------------------------------------------------- *)
(** ** The Jira server as an external collaborator *)

(** A live connection, the object [JIRA(...)] returns. *)
Inductive JIRA : Type := Handle (id : nat).

(** The [fields] dictionary of [create_issue]:
    [{'project': {'key': _}, 'summary': _, 'description': _,
      'issuetype': {'name': _}}]. *)
Record issue_fields : Type := {
  f_project_key : option string;
  f_summary : string;
  f_description : string;
  f_issuetype_name : string
}.

(** The issue resource the server returns; the client reads [issue.key]. *)
Record Issue : Type := { key : string }.

Record User : Type := { displayName : string }.

(** The project resource.  [p_description] is absent when the attribute is
    not there ([getattr] with a default); [p_lead] is absent when
    [project.lead] is falsy. *)
Record Project : Type := {
  p_key : string;
  p_name : string;
  p_description : option string;
  p_lead : option User
}.

(** What the client did, oldest event first. *)
Inductive event : Type :=
| CallJIRA (server : option string) (basic_auth : option string * option string)
| CallCreateIssue (h : JIRA) (fields : issue_fields)
| CallCurrentUser (h : JIRA)
| CallProject (h : JIRA) (key : option string)
| Sleep (seconds : Q).

Definition Trace : Type := list event.

(** The four capabilities.  Each answers from the history before the call. *)
Record Service : Type := {
  svc_JIRA : Trace -> option string -> option string * option string -> result JIRA;
  svc_create_issue : Trace -> JIRA -> issue_fields -> result Issue;
  svc_current_user : Trace -> JIRA -> result string;
  svc_project : Trace -> JIRA -> option string -> result Project
}.

Definition is_sleep (ev : event) : bool :=
  match ev with Sleep _ => true | _ => false end.

Definition is_connect (ev : event) : bool :=
  match ev with CallJIRA _ _ => true | _ => false end.

Definition is_create (ev : event) : bool :=
  match ev with CallCreateIssue _ _ => true | _ => false end.

(** The delays slept, in order. *)
Fixpoint sleeps (tr : Trace) : list Q :=
  match tr with
  | [] => []
  | Sleep d :: tr' => d :: sleeps tr'
  | _ :: tr' => sleeps tr'
  end.

(** The number of events of one kind. *)
Definition count (p : event -> bool) (tr : Trace) : nat :=
  List.length (filter p tr).

(* ------------------------------------------------------------------------- *)
(** ** doc_to_jira.py *)

Module doc_to_jira.

(** The attributes of a [DocToJira] instance.  The four credentials are what
    [os.getenv] returned; [jira_client] is [None] until [__init__] has
    connected. *)
Record DocToJira : Type := {
  max_retries : Z;
  retry_delay : Q;
  jira_base_url : option string;
  jira_email : option string;
  jira_api_token : option string;
  jira_project_key : option string;
  jira_client : option JIRA
}.

(** [not x] for the value of an environment variable: unset or empty. *)
Definition falsy (x : option string) : bool :=
  match x with
  | None => true
  | Some s => PyStr.is_empty s
  end.

(** [if cond: l.append(x)] *)
Definition append_if (cond : bool) (l : list string) (x : string) : list string :=
  if cond then (l ++ [x])%list else l.

Definition _validate_configuration (self : DocToJira) : result unit :=
  let missing_vars := [] in
  let missing_vars := append_if (falsy (jira_base_url self)) missing_vars "JIRA_BASE_URL" in
  let missing_vars := append_if (falsy (jira_email self)) missing_vars "JIRA_EMAIL" in
  let missing_vars := append_if (falsy (jira_api_token self)) missing_vars "JIRA_API_TOKEN" in
  let missing_vars := append_if (falsy (jira_project_key self)) missing_vars "JIRA_PROJECT_KEY" in
  match missing_vars with
  | _ :: _ =>
      let error_msg :=
        "Missing required environment variables: " ++ PyStr.join ", " missing_vars
        ++ ". " ++ "Please ensure all Jira credentials are configured." in
      Raise (Exception JiraConfigurationError error_msg None)
  | [] => Ok tt
  end.

Definition _validate_issue_input (summary description issuetype : string)
  : result unit :=
  let errors := [] in
  let errors :=
    if PyStr.is_empty summary || PyStr.is_empty (PyStr.strip summary)
    then (errors ++ ["Summary cannot be empty"])%list
    else if (PyStr.len (PyStr.strip summary) >? 255)%Z
    then (errors ++ ["Summary cannot exceed 255 characters"])%list
    else errors in
  let errors :=
    append_if (PyStr.is_empty description || PyStr.is_empty (PyStr.strip description))
      errors "Description cannot be empty" in
  let errors :=
    append_if (PyStr.is_empty issuetype || PyStr.is_empty (PyStr.strip issuetype))
      errors "Issue type cannot be empty" in
  match errors with
  | _ :: _ =>
      let error_msg := "Input validation failed: " ++ PyStr.join "; " errors in
      Raise (Exception JiraValidationError error_msg None)
  | [] => Ok tt
  end.

Section Client.

Variable svc : Service.

(** [time.sleep] converts its length to nanoseconds in a double,
    [seconds * 1e9] rounded to the nearest double, and takes it when
    [-2^63 <= ns < 2^63].  Below 2^63 the doubles are 1024 apart and above it
    2048 apart: the product rounds to 2^63 or more from [2^63 - 512] on, and
    to less than [-2^63] below [-(2^63 + 1024)].  [sleep_limit], about 9.22e9
    seconds, is the first length that is not taken, [sleep_floor] the last
    negative length that is converted. *)
Definition sleep_limit : Q := (inject_Z (2 ^ 63 - 512) / inject_Z (10 ^ 9))%Q.

Definition sleep_floor : Q := (- (inject_Z (2 ^ 63 + 1024) / inject_Z (10 ^ 9)))%Q.

(** [time.sleep(seconds)]: the length is converted first, which raises
    [OverflowError] when it is out of range on either side; a negative length
    is refused then. *)
Definition sleep (seconds : Q) : M Trace unit :=
  fun tr =>
    if Qle_bool sleep_limit seconds || negb (Qle_bool sleep_floor seconds)
    then
      (tr, Raise (Exception OverflowError
                    "timestamp too large to convert to C _PyTime_t" None))
    else if Qle_bool 0 seconds
    then ((tr ++ [Sleep seconds])%list, Ok tt)
    else (tr, Raise (Exception ValueError "sleep length must be non-negative" None)).

(** [JIRA(options={'server': server}, basic_auth=basic_auth)] *)
Definition JIRA_new (server : option string)
    (basic_auth : option string * option string) : M Trace JIRA :=
  fun tr => ((tr ++ [CallJIRA server basic_auth])%list, svc_JIRA svc tr server basic_auth).

(** A method call on [self.jira_client]; on [None] the attribute lookup
    fails. *)
Definition on_client {A} (self : DocToJira) (method : string)
    (call : JIRA -> M Trace A) : M Trace A :=
  match jira_client self with
  | Some h => call h
  | None =>
      raise (Exception AttributeError
               ("'NoneType' object has no attribute '" ++ method ++ "'") None)
  end.

Definition create_issue (self : DocToJira) (fields : issue_fields) : M Trace Issue :=
  on_client self "create_issue"
    (fun h tr => ((tr ++ [CallCreateIssue h fields])%list, svc_create_issue svc tr h fields)).

Definition current_user (self : DocToJira) : M Trace string :=
  on_client self "current_user"
    (fun h tr => ((tr ++ [CallCurrentUser h])%list, svc_current_user svc tr h)).

Definition project (self : DocToJira) (key : option string) : M Trace Project :=
  on_client self "project"
    (fun h tr => ((tr ++ [CallProject h key])%list, svc_project svc tr h key)).

(** [retry_delay * (2 ** attempt)], a float times an integer: the integer is
    converted to a float first, which raises [OverflowError] from
    [2 ** 1024] on.  (A product too large for a float is infinite, and
    [time.sleep] refuses it as it refuses every length above its limit.) *)
Definition backoff (retry_delay : Q) (attempt : Z) : result Q :=
  if (1024 <=? attempt)%Z
  then Raise (Exception OverflowError "int too large to convert to float" None)
  else Ok (retry_delay * inject_Z (2 ^ attempt))%Q.

(** The body of [for attempt in range(self.max_retries + 1)] in
    [_connect_to_jira], over the attempts still to run.  A handler that ends
    without raising falls through to the next iteration; a loop that runs out
    of attempts leaves the function, which then returns [None]. *)
Fixpoint _connect_to_jira_loop (self : DocToJira) (attempts : list Z)
  : M Trace (option JIRA) :=
  match attempts with
  | [] => ret None
  | attempt :: rest =>
      try_except
        (jira <- JIRA_new (jira_base_url self)
                   (jira_email self, jira_api_token self) ;;
         ret (Some jira))
        (fun e =>
           if (attempt <? max_retries self)%Z then
             delay <- lift_result (backoff (retry_delay self) attempt) ;;
             sleep delay ;;
             _connect_to_jira_loop self rest
           else
             let error_msg :=
               "Failed to connect to Jira after "
               ++ PyStr.str_of_int (max_retries self + 1)
               ++ " attempts: " ++ exn_str e in
             raise (Exception JiraConnectionError error_msg (Some e)))
  end.

Definition _connect_to_jira (self : DocToJira) : M Trace (option JIRA) :=
  _connect_to_jira_loop self (PyStr.range (max_retries self + 1)).

(** The loop of [create_jira_issue]. *)
Fixpoint create_jira_issue_loop (self : DocToJira) (fields : issue_fields)
    (attempts : list Z) : M Trace (option string) :=
  match attempts with
  | [] => ret None
  | attempt :: rest =>
      try_except
        (issue <- create_issue self fields ;;
         let issue_key := key issue in
         ret (Some issue_key))
        (fun e =>
           if (attempt <? max_retries self)%Z then
             delay <- lift_result (backoff (retry_delay self) attempt) ;;
             sleep delay ;;
             create_jira_issue_loop self fields rest
           else
             let error_msg :=
               "Failed to create Jira issue after "
               ++ PyStr.str_of_int (max_retries self + 1)
               ++ " attempts: " ++ exn_str e in
             raise (Exception JiraIssueCreationError error_msg (Some e)))
  end.

Definition create_jira_issue (self : DocToJira)
    (summary description issuetype : string) : M Trace (option string) :=
  lift_result (_validate_issue_input summary description issuetype) ;;
  let issue_fields := {|
    f_project_key := jira_project_key self;
    f_summary := PyStr.strip summary;
    f_description := PyStr.strip description;
    f_issuetype_name := PyStr.strip issuetype
  |} in
  create_jira_issue_loop self issue_fields (PyStr.range (max_retries self + 1)).

Definition test_connection (self : DocToJira) : M Trace bool :=
  try_except
    (user <- current_user self ;;
     ret true)
    (fun e => ret false).

(** The dictionary [get_project_info] builds. *)
Record project_info : Type := {
  info_key : string;
  info_name : string;
  info_description : string;
  info_lead : string
}.

Definition get_project_info (self : DocToJira) : M Trace (option project_info) :=
  try_except
    (project <- project self (jira_project_key self) ;;
     let project_info := {|
       info_key := p_key project;
       info_name := p_name project;
       info_description :=
         match p_description project with
         | Some d => d
         | None => "No description"
         end;
       info_lead :=
         match p_lead project with
         | Some lead => displayName lead
         | None => "No lead assigned"
         end
     |} in
     ret (Some project_info))
    (fun e => ret None).

(** [DocToJira(max_retries, retry_delay)] with the four environment variables
    as [os.getenv] reads them. *)
Definition __init__ (max_retries : Z) (retry_delay : Q)
    (JIRA_BASE_URL JIRA_EMAIL JIRA_API_TOKEN JIRA_PROJECT_KEY : option string)
  : M Trace DocToJira :=
  let self := {|
    max_retries := max_retries;
    retry_delay := retry_delay;
    jira_base_url := JIRA_BASE_URL;
    jira_email := JIRA_EMAIL;
    jira_api_token := JIRA_API_TOKEN;
    jira_project_key := JIRA_PROJECT_KEY;
    jira_client := None
  |} in
  lift_result (_validate_configuration self) ;;
  client <- _connect_to_jira self ;;
  ret {|
    max_retries := max_retries;
    retry_delay := retry_delay;
    jira_base_url := JIRA_BASE_URL;
    jira_email := JIRA_EMAIL;
    jira_api_token := JIRA_API_TOKEN;
    jira_project_key := JIRA_PROJECT_KEY;
    jira_client := client
  |}.

End Client.

End doc_to_jira.

(* ------------------------------------------------------------------------- *)
(** ** main_jira.py *)

Module main_jira.

Import doc_to_jira.

(** The values [json.load] produces. *)
#[warnings="-register-all"]
Inductive pyval : Type :=
| PNone
| PBool (b : bool)
| PInt (z : Z)
| PFloat (q : Q)
| PStr (s : string)
| PList (l : list pyval)
| PDict (items : list (string * pyval)).

(** [type(v).__name__] *)
Definition type_name (v : pyval) : string :=
  match v with
  | PNone => "NoneType"
  | PBool _ => "bool"
  | PInt _ => "int"
  | PFloat _ => "float"
  | PStr _ => "str"
  | PList _ => "list"
  | PDict _ => "dict"
  end.

Definition no_attribute (v : pyval) (attr : string) : exn :=
  Exception AttributeError
    ("'" ++ type_name v ++ "' object has no attribute '" ++ attr ++ "'") None.

(** [d.get(key, default)] on the items of a dictionary. *)
Fixpoint dict_get (items : list (string * pyval)) (key : string)
    (default : pyval) : pyval :=
  match items with
  | [] => default
  | (k, v) :: items' => if String.eqb k key then v else dict_get items' key default
  end.

(** [entry.get(key, default)]: only a dictionary has the method. *)
Definition py_get (entry : pyval) (key : string) (default : pyval)
  : result pyval :=
  match entry with
  | PDict items => Ok (dict_get items key default)
  | _ => Raise (no_attribute entry "get")
  end.

(** [v.strip()]: only a string has the method. *)
Definition py_strip (v : pyval) : result string :=
  match v with
  | PStr s => Ok (PyStr.strip s)
  | _ => Raise (no_attribute v "strip")
  end.

(** The dictionaries appended to the three lists of [results]. *)
Record created_item : Type := {
  created_entry : Z;
  created_issue_key : option string;
  created_summary : string
}.

Record failed_item : Type := {
  failed_entry : Z;
  failed_error : string;
  failed_summary : pyval
}.

Record skipped_item : Type := {
  skipped_entry : Z;
  skipped_reason : string
}.

Record Results : Type := {
  created_issues : list created_item;
  failed_issues : list failed_item;
  skipped_issues : list skipped_item
}.

Definition empty_results : Results :=
  {| created_issues := []; failed_issues := []; skipped_issues := [] |}.

(** The state of [run_jira_from_json]: what the client did and the shared
    [results] dictionary. *)
Record BatchState : Type := {
  trace : Trace;
  results : Results
}.

(** A call into the client: it moves the trace and leaves [results] alone. *)
Definition on_trace {A} (m : M Trace A) : M BatchState A :=
  fun s =>
    let (tr', r) := m (trace s) in
    ({| trace := tr'; results := results s |}, r).

Definition update_results (f : Results -> Results) : M BatchState unit :=
  fun s => ({| trace := trace s; results := f (results s) |}, Ok tt).

(** [results['created_issues'].append(item)] *)
Definition append_created (item : created_item) : M BatchState unit :=
  update_results (fun r =>
    {| created_issues := (created_issues r ++ [item])%list;
       failed_issues := failed_issues r;
       skipped_issues := skipped_issues r |}).

(** [results['failed_issues'].append(item)] *)
Definition append_failed (item : failed_item) : M BatchState unit :=
  update_results (fun r =>
    {| created_issues := created_issues r;
       failed_issues := (failed_issues r ++ [item])%list;
       skipped_issues := skipped_issues r |}).

(** [results['skipped_issues'].append(item)] *)
Definition append_skipped (item : skipped_item) : M BatchState unit :=
  update_results (fun r =>
    {| created_issues := created_issues r;
       failed_issues := failed_issues r;
       skipped_issues := (skipped_issues r ++ [item])%list |}).

Section Batch.

Variable svc : Service.

(** What each of the three handlers of the loop body does: the dictionary is
    built first, [entry.get] included, and appended then. *)
Definition record_failure (i : Z) (entry : pyval) (e : exn) : M BatchState unit :=
  summary <- lift_result (py_get entry "user_story" (PStr "Unknown")) ;;
  append_failed {| failed_entry := i;
                   failed_error := exn_str e;
                   failed_summary := summary |}.

(** The body of [for i, entry in enumerate(user_stories, 1)].  [continue]
    ends the body. *)
Definition process_entry (jira : DocToJira) (i : Z) (entry : pyval)
  : M BatchState unit :=
  try_except
    (summary <- lift_result
        (bind_result (py_get entry "user_story" (PStr "")) py_strip) ;;
     description <- lift_result
        (bind_result (py_get entry "deliverables" (PStr "")) py_strip) ;;
     issuetype <- lift_result
        (bind_result (py_get entry "issue_type" (PStr "Story")) py_strip) ;;
     if PyStr.is_empty summary then
       append_skipped {| skipped_entry := i;
                         skipped_reason := "Missing or empty 'user_story'" |}
     else if PyStr.is_empty description then
       append_skipped {| skipped_entry := i;
                         skipped_reason := "Missing or empty 'deliverables'" |}
     else
       issue_key <- on_trace
         (create_jira_issue svc jira summary description issuetype) ;;
       append_created {| created_entry := i;
                         created_issue_key := issue_key;
                         created_summary := summary |})
    (fun e =>
       match exn_cls e with
       | JiraValidationError => record_failure i entry e
       | JiraIssueCreationError => record_failure i entry e
       | _ => record_failure i entry e
       end).

(** The loop over the entries from position [i] on. *)
Fixpoint for_entries (jira : DocToJira) (i : Z) (user_stories : list pyval)
  : M BatchState unit :=
  match user_stories with
  | [] => ret tt
  | entry :: rest =>
      process_entry jira i entry ;;
      for_entries jira (i + 1) rest
  end.

(** The [try] block of [run_jira_from_json].  [loaded] is what opening the
    file and [json.load] gave: a value or an exception. *)
Definition run_jira_from_json_body
    (JIRA_BASE_URL JIRA_EMAIL JIRA_API_TOKEN JIRA_PROJECT_KEY : option string)
    (loaded : result pyval) : M BatchState unit :=
  jira <- on_trace
    (__init__ svc 3 1 JIRA_BASE_URL JIRA_EMAIL JIRA_API_TOKEN JIRA_PROJECT_KEY) ;;
  connected <- on_trace (test_connection svc jira) ;;
  if negb connected then ret tt
  else
    project_info <- on_trace (get_project_info svc jira) ;;
    user_stories <- lift_result loaded ;;
    match user_stories with
    | PList l => for_entries jira 1 l
    | _ =>
        raise (Exception TypeError
                 "JSON file should contain a list of user stories." None)
    end.

(** [run_jira_from_json]: every handler of the outer [try] reports and falls
    through to [return results]. *)
Definition run_jira_from_json
    (JIRA_BASE_URL JIRA_EMAIL JIRA_API_TOKEN JIRA_PROJECT_KEY : option string)
    (loaded : result pyval) (tr : Trace) : Trace * Results :=
  let (s, _) :=
    try_except
      (run_jira_from_json_body
         JIRA_BASE_URL JIRA_EMAIL JIRA_API_TOKEN JIRA_PROJECT_KEY loaded)
      (fun e => ret tt)
      {| trace := tr; results := empty_results |} in
  (trace s, results s).

End Batch.

(** The positions recorded in the three buckets. *)
Definition created_entries (r : Results) : list Z :=
  map created_entry (created_issues r).

Definition failed_entries (r : Results) : list Z :=
  map failed_entry (failed_issues r).

Definition skipped_entries (r : Results) : list Z :=
  map skipped_entry (skipped_issues r).

(** The number of entries recorded in the three buckets together. *)
Definition tally (r : Results) : nat :=
  (List.length (created_issues r) + List.length (failed_issues r)
   + List.length (skipped_issues r))%nat.

Definition is_dict (v : pyval) : bool :=
  match v with PDict _ => true | _ => false end.

(** [required_fields] of [validate_json_structure]. *)
Definition required_fields : list string := ["user_story"; "deliverables"].

(** [not entry.get(field, "").strip()] *)
Definition field_is_missing (entry : pyval) (field : string) : result bool :=
  bind_result (py_get entry field (PStr "")) (fun v =>
  bind_result (py_strip v) (fun s => Ok (PyStr.is_empty s))).

(** [[field for field in fields if not entry.get(field, "").strip()]]: the
    test is evaluated for every field, in order. *)
Fixpoint missing_fields (entry : pyval) (fields : list string)
  : result (list string) :=
  match fields with
  | [] => Ok []
  | field :: fields' =>
      bind_result (field_is_missing entry field) (fun missing =>
      bind_result (missing_fields entry fields') (fun rest =>
      Ok (if missing then field :: rest else rest)))
  end.

(** The loop of [validate_json_structure] over the entries still to check,
    [valid_entries] being the counter.  An entry that is not a dictionary is
    reported and passed over. *)
Fixpoint count_valid_entries (data : list pyval) (valid_entries : Z)
  : result Z :=
  match data with
  | [] => Ok valid_entries
  | entry :: rest =>
      if negb (is_dict entry) then count_valid_entries rest valid_entries
      else
        bind_result (missing_fields entry required_fields) (fun missing =>
          match missing with
          | _ :: _ => count_valid_entries rest valid_entries
          | [] => count_valid_entries rest (valid_entries + 1)
          end)
  end.

(** [validate_json_structure]: [loaded] is what opening the file and
    [json.load] gave.  Each of the three handlers returns [False]. *)
Definition validate_json_structure (loaded : result pyval) : bool :=
  match
    bind_result loaded (fun data =>
      match data with
      | PList l =>
          bind_result (count_valid_entries l 0) (fun valid_entries =>
          Ok (valid_entries >? 0)%Z)
      | _ => Ok false
      end)
  with
  | Ok b => b
  | Raise _ => false
  end.

Section Raw.

Variable svc : Service.

(** [run_jira_from_raw]: the client with its default retry settings and one
    fixed issue.  Each of the five handlers returns [None]. *)
Definition run_jira_from_raw
    (JIRA_BASE_URL JIRA_EMAIL JIRA_API_TOKEN JIRA_PROJECT_KEY : option string)
    (tr : Trace) : Trace * option string :=
  match
    (jira <- __init__ svc 3 1
               JIRA_BASE_URL JIRA_EMAIL JIRA_API_TOKEN JIRA_PROJECT_KEY ;;
     let summary := "Resolve Dodo bug." in
     let description :=
       "The Dodo in GTA Liberty City takes too much time to lift off." in
     let issuetype := "Bug" in
     create_jira_issue svc jira summary description issuetype) tr
  with
  | (tr', Ok issue_key) => (tr', issue_key)
  | (tr', Raise _) => (tr', None)
  end.

End Raw.

End main_jira.

(* ------------------------------------------------------------------------- *)
(** ** Vocabulary of the specification *)

Module Spec.

Import doc_to_jira main_jira.

(** The common shape of the two retry loops: the operation and the class and
    text of the terminal error are the only differences between them. *)
Fixpoint retry_loop {A} (svc : Service) (operation : M Trace A)
    (max_retries : Z) (retry_delay : Q) (terminal : exn_class) (what : string)
    (attempts : list Z) : M Trace (option A) :=
  match attempts with
  | [] => ret None
  | attempt :: rest =>
      try_except
        (a <- operation ;; ret (Some a))
        (fun e =>
           if (attempt <? max_retries)%Z then
             delay <- lift_result (backoff retry_delay attempt) ;;
             sleep delay ;;
             retry_loop svc operation max_retries retry_delay terminal what rest
           else
             raise (Exception terminal
                      (what ++ PyStr.str_of_int (max_retries + 1)
                       ++ " attempts: " ++ exn_str e) (Some e)))
  end.

(** The delay of the specification after the failure of attempt number [i]
    (counted from 0): the initial delay times [2^i]. *)
Definition delay_at (d : Q) (i : nat) : Q :=
  (d * inject_Z (2 ^ Z.of_nat i))%Q.

(** [k] delays that start at [d], each twice the one before:
    [d, 2d, 4d, ...]. *)
Fixpoint doubling (d : Q) (k : nat) : list Q :=
  match k with
  | O => []
  | S k' => d :: doubling (2 * d)%Q k'
  end.

(** The delay after attempt number [i] is one the program can compute and
    sleep: [2^i] converts to a float, and the delay is not negative and
    below the limit of [time.sleep]. *)
Definition sleepable (d : Q) (i : nat) : Prop :=
  (i < 1024)%nat /\ (0 <= delay_at d i)%Q /\ (delay_at d i < sleep_limit)%Q.

(** What [k] failed and retried attempts leave in the trace, the first of
    them being attempt number [first] (counted from 0): the call, the sleep
    of [d * 2^first], the call, the sleep of [d * 2^(first+1)], ... *)
Fixpoint retried (call : event) (d : Q) (first k : nat) : Trace :=
  match k with
  | O => []
  | S k' =>
      call :: Sleep (delay_at d first) :: retried call d (S first) k'
  end.

(** The exponential sequence [d * 2^0, d * 2^1, ..., d * 2^(k-1)]. *)
Definition delays (d : Q) (k : nat) : list Q :=
  map (delay_at d) (seq 0 k).

(** What the handler does between two attempts: it computes the delay and
    sleeps it. *)
Definition pause (retry_delay : Q) (attempt : Z) : M Trace unit :=
  delay <- lift_result (backoff retry_delay attempt) ;;
  sleep delay.

(** The text of the terminal error after [attempts] attempts. *)
Definition terminal_message (what : string) (attempts : Z) (e : exn) : string :=
  what ++ PyStr.str_of_int attempts ++ " attempts: " ++ exn_str e.

(** The call [_connect_to_jira] makes on every attempt. *)
Definition connect_call (self : DocToJira) : event :=
  CallJIRA (jira_base_url self) (jira_email self, jira_api_token self).

(** The fields [create_jira_issue] submits: the configured project key and
    the three inputs with leading and trailing white space removed. *)
Definition trimmed_fields (self : DocToJira)
    (summary description issuetype : string) : issue_fields :=
  {| f_project_key := jira_project_key self;
     f_summary := PyStr.strip summary;
     f_description := PyStr.strip description;
     f_issuetype_name := PyStr.strip issuetype |}.

(** The four named credentials with their values. *)
Definition credentials (self : DocToJira) : list (string * option string) :=
  [ ("JIRA_BASE_URL", jira_base_url self);
    ("JIRA_EMAIL", jira_email self);
    ("JIRA_API_TOKEN", jira_api_token self);
    ("JIRA_PROJECT_KEY", jira_project_key self) ].

(** The names of the credentials that are missing or empty. *)
Definition missing (self : DocToJira) : list string :=
  map fst (filter (fun c => falsy (snd c)) (credentials self)).

(** The rules of the issue request validator, each evaluated on its own,
    with the message of each violated rule. *)
Definition violations (summary description issuetype : string) : list string :=
  ((if PyStr.blank summary then ["Summary cannot be empty"] else [])
   ++ (if (255 <? PyStr.len (PyStr.strip summary))%Z
       then ["Summary cannot exceed 255 characters"] else [])
   ++ (if PyStr.blank description then ["Description cannot be empty"] else [])
   ++ (if PyStr.blank issuetype then ["Issue type cannot be empty"] else []))%list.

(** The first, respectively the last, character is white space. *)
Definition starts_with_space (s : string) : bool :=
  match s with
  | EmptyString => false
  | String c _ => PyStr.isspace c
  end.

Fixpoint ends_with_space (s : string) : bool :=
  match s with
  | EmptyString => false
  | String c EmptyString => PyStr.isspace c
  | String _ s' => ends_with_space s'
  end.

(** [t] is [s] with its leading and trailing white space removed. *)
Definition trimmed (s t : string) : Prop :=
  exists lead trail : string,
    s = (lead ++ t ++ trail)%string
    /\ PyStr.blank lead = true /\ PyStr.blank trail = true
    /\ starts_with_space t = false /\ ends_with_space t = false.

(** The dictionary [get_project_info] builds from a project resource. *)
Definition info_of (project : Project) : project_info :=
  {| info_key := p_key project;
     info_name := p_name project;
     info_description :=
       match p_description project with
       | Some d => d
       | None => "No description"
       end;
     info_lead :=
       match p_lead project with
       | Some lead => displayName lead
       | None => "No lead assigned"
       end |}.

(** The three result buckets. *)
Inductive bucket : Type := Created | Failed | Skipped.

Definition bucket_eqb (a b : bucket) : bool :=
  match a, b with
  | Created, Created | Failed, Failed | Skipped, Skipped => true
  | _, _ => false
  end.

(** The positions, counted from [i], of the entries that went to bucket [b],
    in input order; [outcome] gives the bucket of each entry. *)
Fixpoint positions (b : bucket) (i : Z) (outcome : list bucket) : list Z :=
  match outcome with
  | [] => []
  | o :: outcome' =>
      if bucket_eqb o b then i :: positions b (i + 1) outcome'
      else positions b (i + 1) outcome'
  end.

(** [results] with one more skipped entry. *)
Definition with_skipped (st : BatchState) (i : Z) (reason : string) : BatchState :=
  {| trace := trace st;
     results :=
       {| created_issues := created_issues (results st);
          failed_issues := failed_issues (results st);
          skipped_issues :=
            (skipped_issues (results st)
             ++ [{| skipped_entry := i; skipped_reason := reason |}])%list |} |}.

(** The state after a call into the client that left the trace [tr'] and
    returned [issue_key]: one more created entry. *)
Definition with_created (st : BatchState) (tr' : Trace) (i : Z)
    (issue_key : option string) (summary : string) : BatchState :=
  {| trace := tr';
     results :=
       {| created_issues :=
            (created_issues (results st)
             ++ [{| created_entry := i; created_issue_key := issue_key;
                    created_summary := summary |}])%list;
          failed_issues := failed_issues (results st);
          skipped_issues := skipped_issues (results st) |} |}.

(** The state after a call into the client that left the trace [tr'] and
    raised: one more failed entry. *)
Definition with_failed (st : BatchState) (tr' : Trace) (i : Z)
    (error : string) (summary : pyval) : BatchState :=
  {| trace := tr';
     results :=
       {| created_issues := created_issues (results st);
          failed_issues :=
            (failed_issues (results st)
             ++ [{| failed_entry := i; failed_error := error;
                    failed_summary := summary |}])%list;
          skipped_issues := skipped_issues (results st) |} |}.

(** The steps of the batch processor for one entry whose three fields were
    extracted as [summary], [description] and [issuetype]: skip on an empty
    summary, else skip on an empty description, and only otherwise call
    [create_jira_issue] and record what it returned or raised. *)
Definition entry_outcome (svc : Service) (jira : DocToJira) (i : Z)
    (items : list (string * pyval)) (st : BatchState)
    (reason_summary reason_description : string)
    (summary description issuetype : string) : BatchState :=
  if PyStr.is_empty summary then with_skipped st i reason_summary
  else if PyStr.is_empty description then with_skipped st i reason_description
  else
    match create_jira_issue svc jira summary description issuetype (trace st) with
    | (tr', Ok issue_key) => with_created st tr' i issue_key summary
    | (tr', Raise e) =>
        with_failed st tr' i (exn_str e)
          (dict_get items "user_story" (PStr "Unknown"))
    end.

(** The rule "an entry whose summary is empty after trimming is appended to
    [skipped] with the given reason, and the client is not called", for every
    entry that is a record. *)
Definition skips_missing_summary (reason : string) : Prop :=
  forall (svc : Service) (jira : DocToJira) (i : Z)
         (items : list (string * pyval)) (st : BatchState),
    py_strip (dict_get items "user_story" (PStr "")) = Ok "" ->
    process_entry svc jira i (PDict items) st = (with_skipped st i reason, Ok tt).

(** The operation of the issue creation loop: the call and the reading of
    [issue.key]. *)
Definition create_operation (svc : Service) (self : DocToJira)
    (fields : issue_fields) : M Trace string :=
  issue <- create_issue svc self fields ;; ret (key issue).

(** The call [create_jira_issue] makes on every attempt. *)
Definition create_call (self : DocToJira) (h : JIRA)
    (summary description issuetype : string) : event :=
  CallCreateIssue h (trimmed_fields self summary description issuetype).

(** The history when attempt number [j] (counted from 0) is made, the [j]
    attempts before it having failed. *)
Definition history (tr : Trace) (call : event) (d : Q) (j : nat) : Trace :=
  (tr ++ retried call d 0 j)%list.

(** The answer of the server to a connection attempt made at [hist]. *)
Definition connect_answer (svc : Service) (self : DocToJira) (hist : Trace)
  : result JIRA :=
  svc_JIRA svc hist (jira_base_url self) (jira_email self, jira_api_token self).

(** The answer of the server to an issue creation attempt made at [hist]. *)
Definition create_answer (svc : Service) (self : DocToJira) (h : JIRA)
    (summary description issuetype : string) (hist : Trace) : result Issue :=
  svc_create_issue svc hist h (trimmed_fields self summary description issuetype).



(** How a retry loop ends, [attempt] being the number (counted from 0) of the
    last attempt made and [answer] what the operation gave there: the value
    is returned; or the retries are used up and the terminal error wraps the
    failure; or the pause before the next attempt raises, the delay being
    out of range or negative. *)
Inductive loop_outcome {A} (terminal : exn_class) (what : string)
    (n : nat) (d : Q) (attempt : nat) (answer : result A)
  : result (option A) -> Prop :=
| Returned (v : A) :
    answer = Ok v ->
    loop_outcome terminal what n d attempt answer (Ok (Some v))
| Exhausted (e : exn) :
    answer = Raise e -> attempt = n ->
    loop_outcome terminal what n d attempt answer
      (Raise (Exception terminal (terminal_message what (Z.of_nat n + 1) e)
                (Some e)))
| Interrupted (e x : exn) :
    answer = Raise e -> (attempt < n)%nat ->
    snd (pause d (Z.of_nat attempt) []) = Raise x ->
    loop_outcome terminal what n d attempt answer (Raise x).

(** A run that extended the trace [tr] to [tr'] by at most [k + 1] calls and
    by the sleeps [d, 2d, ..., d * 2^(k-1)], for some [k <= n]. *)
Definition bounded_run (tr tr' : Trace) (is_call : event -> bool)
    (d : Q) (n : nat) : Prop :=
  exists (new : Trace) (k : nat),
    tr' = (tr ++ new)%list
    /\ (k <= n)%nat
    /\ (count is_call new <= S k)%nat
    /\ sleeps new = delays d k
    /\ Forall2 Qeq (sleeps new) (doubling d k).

(** The error of a method call on a client that is [None]. *)
Definition no_client (method : string) : exn :=
  Exception AttributeError
    ("'NoneType' object has no attribute '" ++ method ++ "'") None.

(** The error [time.sleep] raises on a negative length. *)
Definition sleep_refused : exn :=
  Exception ValueError "sleep length must be non-negative" None.


(** The error of the conversion of [2 ** attempt] to a float. *)
Definition float_overflow : exn :=
  Exception OverflowError "int too large to convert to float" None.

(** The instance [__init__] works on: the settings, the four credentials and
    the connection. *)
Definition client_with (max_retries : Z) (retry_delay : Q)
    (url email token project : option string) (client : option JIRA)
  : DocToJira :=
  {| max_retries := max_retries;
     retry_delay := retry_delay;
     jira_base_url := url;
     jira_email := email;
     jira_api_token := token;
     jira_project_key := project;
     jira_client := client |}.

(** What a submission to the server must satisfy: the connection and the
    project key of the client, a summary of 1 to 255 characters, a
    description and an issue type that are not empty. *)
Definition well_formed_submission (self : DocToJira) (h : JIRA) (ev : event)
  : Prop :=
  match ev with
  | CallCreateIssue h' fields =>
      h' = h
      /\ f_project_key fields = jira_project_key self
      /\ (1 <= PyStr.len (f_summary fields) <= 255)%Z
      /\ (1 <= PyStr.len (f_description fields))%Z
      /\ (1 <= PyStr.len (f_issuetype_name fields))%Z
  | Sleep _ => True
  | _ => False
  end.

(** An entry [validate_json_structure] can check: not a dictionary, which is
    passed over, or a dictionary whose two required fields, where present,
    are strings. *)
Definition readable (entry : pyval) : bool :=
  match entry with
  | PDict items =>
      forallb
        (fun field =>
           match dict_get items field (PStr "") with
           | PStr _ => true
           | _ => false
           end)
        required_fields
  | _ => true
  end.

(** A valid entry: a dictionary whose two required fields are strings that
    are not blank. *)
Definition complete (entry : pyval) : bool :=
  match entry with
  | PDict items =>
      forallb
        (fun field =>
           match dict_get items field (PStr "") with
           | PStr s => negb (PyStr.blank s)
           | _ => false
           end)
        required_fields
  | _ => false
  end.

(** The fields [run_jira_from_raw] submits. *)
Definition raw_issue_fields (project : option string) : issue_fields :=
  {| f_project_key := project;
     f_summary := "Resolve Dodo bug.";
     f_description :=
       "The Dodo in GTA Liberty City takes too much time to lift off.";
     f_issuetype_name := "Bug" |}.




End Spec.

(* ------------------------------------------------------------------------- *)
(** ** Concrete servers and clients *)

Module Examples.

Import doc_to_jira main_jira.

Definition failure (text : string) : exn :=
  Exception (OtherException "Exception") text None.

Definition test_project : Project :=
  {| p_key := "TEST"; p_name := "Test Project";
     p_description := Some "A test project";
     p_lead := Some {| displayName := "John Doe" |} |}.

(** A server on which every call fails. *)
Definition failing : Service :=
  {| svc_JIRA := fun _ _ _ => Raise (failure "Connection failed");
     svc_create_issue := fun _ _ _ => Raise (failure "Persistent error");
     svc_current_user := fun _ _ => Raise (failure "Auth failed");
     svc_project := fun _ _ _ => Raise (failure "Project not found") |}.

(** A server on which the first [k] connection attempts and the first [k]
    issue creations fail, as a mock with a list of side effects. *)
Definition failing_first (k : nat) : Service :=
  {| svc_JIRA := fun hist _ _ =>
       if (count is_connect hist <? k)%nat
       then Raise (failure "Connection failed") else Ok (Handle 7);
     svc_create_issue := fun hist _ _ =>
       if (count is_create hist <? k)%nat
       then Raise (failure "Network error") else Ok {| key := "TEST-456" |};
     svc_current_user := fun _ _ => Ok "test_user";
     svc_project := fun _ _ _ => Ok test_project |}.

(** A connected client with the credentials of the test suite. *)
Definition client (max_retries : Z) (retry_delay : Q) : DocToJira :=
  {| max_retries := max_retries;
     retry_delay := retry_delay;
     jira_base_url := Some "https://test.atlassian.net";
     jira_email := Some "test@example.com";
     jira_api_token := Some "test-token-123";
     jira_project_key := Some "TEST";
     jira_client := Some (Handle 0) |}.

(** A batch whose first entry is a number and whose second is a complete
    record: [[5, {"user_story": "A", "deliverables": "B"}]]. *)
Definition batch_with_number : list pyval :=
  [ PInt 5; PDict [("user_story", PStr "A"); ("deliverables", PStr "B")] ].

(** The batch of the specification, three records. *)
Definition batch_of_three : list pyval :=
  [ PDict [("user_story", PStr "A"); ("deliverables", PStr "B")];
    PDict [("deliverables", PStr "C")];
    PDict [("user_story", PStr "D"); ("deliverables", PStr "E");
           ("issue_type", PStr "Bug")] ].

Definition no_results : BatchState :=
  {| trace := []; results := empty_results |}.


End Examples.

(* ------------------------------------------------------------------------- *)
(** * Properties *)

Import doc_to_jira main_jira Spec.

Local Open Scope string_scope.
Local Open Scope list_scope.
Local Open Scope Z_scope.

(** ** The retry loops *)

Lemma sleep_in_range (q : Q) (tr : Trace) :
  (0 <= q)%Q -> (q < sleep_limit)%Q ->
  sleep q tr = (tr ++ [Sleep q], Ok tt).
Proof.
  intros Hq Hlt. unfold sleep.
  assert (H1 : Qle_bool sleep_limit q = false).
  { destruct (Qle_bool sleep_limit q) eqn:E; [|reflexivity].
    apply Qle_bool_iff in E. exfalso. exact (Qlt_not_le _ _ Hlt E). }
  assert (H2 : Qle_bool sleep_floor q = true).
  { apply Qle_bool_iff. apply Qle_trans with 0%Q; [|exact Hq].
    vm_compute. discriminate. }
  assert (H3 : Qle_bool 0 q = true) by (apply Qle_bool_iff; exact Hq).
  rewrite H1, H2, H3. reflexivity.
Qed.

Lemma backoff_converts (d : Q) (i : nat) :
  (i < 1024)%nat -> backoff d (Z.of_nat i) = Ok (delay_at d i).
Proof.
  intros Hi. unfold backoff, delay_at.
  destruct (Z.leb_spec 1024 (Z.of_nat i)); [lia | reflexivity].
Qed.

Lemma backoff_overflows (d : Q) (i : nat) :
  (1024 <= i)%nat -> backoff d (Z.of_nat i) = Raise float_overflow.
Proof.
  intros Hi. unfold backoff.
  destruct (Z.leb_spec 1024 (Z.of_nat i)); [reflexivity | lia].
Qed.

(** The handler of a failed attempt that has retries left, when the delay
    can be slept. *)
Lemma pause_sleeps (d : Q) (i : nat) (tr : Trace) :
  sleepable d i ->
  pause d (Z.of_nat i) tr = (tr ++ [Sleep (delay_at d i)], Ok tt).
Proof.
  intros (Hi & H0 & Hlt). unfold pause, bind, lift_result.
  rewrite backoff_converts by exact Hi. apply sleep_in_range; assumption.
Qed.

(** The pause leaves a sleep of the delay of the specification, or raises
    and leaves nothing. *)
Lemma pause_cases (d : Q) (i : nat) (tr : Trace) :
  pause d (Z.of_nat i) tr = (tr ++ [Sleep (delay_at d i)], Ok tt)
  \/ exists x, pause d (Z.of_nat i) tr = (tr, Raise x)
                /\ snd (pause d (Z.of_nat i) []) = Raise x.
Proof.
  unfold pause, bind, lift_result, backoff.
  destruct (1024 <=? Z.of_nat i).
  - right. eexists. split; reflexivity.
  - fold (delay_at d i). unfold sleep.
    destruct (Qle_bool sleep_limit (delay_at d i)
              || negb (Qle_bool sleep_floor (delay_at d i))).
    + right. eexists. split; reflexivity.
    + destruct (Qle_bool 0 (delay_at d i)).
      * left. reflexivity.
      * right. eexists. split; reflexivity.
Qed.

(** What the pause raises does not depend on the trace, and a pause that
    raises leaves the trace as it was. *)
Lemma pause_raises (d : Q) (a : Z) (x : exn) (tr : Trace) :
  snd (pause d a []) = Raise x -> pause d a tr = (tr, Raise x).
Proof.
  unfold pause, bind, lift_result.
  destruct (backoff d a) as [delay|e]; [|simpl; congruence].
  unfold sleep.
  destruct (Qle_bool sleep_limit delay || negb (Qle_bool sleep_floor delay));
    [simpl; congruence|].
  destruct (Qle_bool 0 delay); simpl; [discriminate | congruence].
Qed.

Lemma handler_pauses {B} (d : Q) (a : Z) (k : M Trace B) (tr : Trace) :
  bind (lift_result (backoff d a)) (fun delay => bind (sleep delay) (fun _ => k)) tr
  = bind (pause d a) (fun _ => k) tr.
Proof.
  unfold pause, bind, lift_result.
  destruct (backoff d a) as [delay|e]; [|reflexivity].
  destruct (sleep delay tr) as [tr' [[]|e]]; reflexivity.
Qed.



Lemma delay_at_first (d : Q) : (delay_at d 0 == d)%Q.
Proof. unfold delay_at. simpl. ring. Qed.

Lemma delay_at_next (d : Q) (i : nat) :
  (delay_at d (S i) == 2 * delay_at d i)%Q.
Proof.
  unfold delay_at.
  rewrite Nat2Z.inj_succ, Z.pow_succ_r by lia.
  rewrite inject_Z_mult. ring.
Qed.

(** The delays of the specification double from one attempt to the next. *)
Lemma delays_double (d : Q) (k : nat) :
  forall (first : nat) (q : Q),
    (q == delay_at d first)%Q ->
    Forall2 Qeq (map (delay_at d) (seq first k)) (doubling q k).
Proof.
  induction k as [|k IH]; intros first q Hq; simpl.
  - constructor.
  - constructor.
    + symmetry. exact Hq.
    + apply IH. rewrite delay_at_next, Hq. reflexivity.
Qed.

Lemma delays_doubling (d : Q) (k : nat) : Forall2 Qeq (delays d k) (doubling d k).
Proof. apply delays_double. symmetry. apply delay_at_first. Qed.

Lemma count_retried (p : event -> bool) (call : event) (d : Q) (k first : nat) :
  p call = true -> (forall q, p (Sleep q) = false) ->
  count p (retried call d first k ++ [call]) = S k.
Proof.
  intros Hc Hs. unfold count. revert first.
  induction k as [|k IH]; intros first; simpl.
  - rewrite Hc. reflexivity.
  - rewrite Hc, Hs. simpl. rewrite IH. reflexivity.
Qed.

Lemma count_app (p : event -> bool) (a b : Trace) :
  count p (a ++ b) = (count p a + count p b)%nat.
Proof. unfold count. rewrite filter_app, length_app. reflexivity. Qed.


Lemma sleeps_retried (call : event) (d : Q) (k first : nat) :
  is_sleep call = false ->
  sleeps (retried call d first k ++ [call])
  = map (delay_at d) (seq first k).
Proof.
  intros Hc. revert first.
  induction k as [|k IH]; intros first; simpl.
  - destruct call; simpl in *; congruence.
  - destruct call; simpl in *; try congruence; rewrite IH; reflexivity.
Qed.


Section Loop.

Context {A : Type}.
Variable svc : Service.
Variable operation : M Trace A.
Variable call : event.
Variable n : nat.
Variable d : Q.
Variable terminal : exn_class.
Variable what : string.

Hypothesis one_call : forall tr, fst (operation tr) = tr ++ [call].

Local Abbreviation loop := (retry_loop svc operation (Z.of_nat n) d terminal what).

(** One failed attempt that has retries left. *)
Lemma loop_step (first : nat) (rest : list Z) (tr : Trace) (e : exn) :
  (first < n)%nat ->
  snd (operation tr) = Raise e ->
  loop (Z.of_nat first :: rest) tr
  = bind (pause d (Z.of_nat first)) (fun _ => loop rest) (tr ++ [call]).
Proof.
  intros Hlt Hop. cbn [retry_loop]. unfold try_except. unfold bind at 1.
  pose proof (one_call tr) as Hc.
  destruct (operation tr) as [tr1 [a|e']]; simpl in Hc, Hop; [discriminate|].
  subst tr1.
  replace (Z.of_nat first <? Z.of_nat n) with true
    by (symmetry; apply Z.ltb_lt; lia).
  apply handler_pauses.
Qed.

(** [k] failed attempts that have retries left are retried, when their
    delays can be slept. *)
Lemma loop_retries (k : nat) :
  forall (first len : nat) (tr : Trace),
    (first + k <= n)%nat ->
    (forall j, (j < k)%nat -> sleepable d (first + j)) ->
    (forall j, (j < k)%nat ->
       is_ok (snd (operation (tr ++ retried call d first j))) = false) ->
    loop (map Z.of_nat (seq first (k + len))) tr
    = loop (map Z.of_nat (seq (first + k) len)) (tr ++ retried call d first k).
Proof.
  induction k as [|k IH]; intros first len tr Hle Hsl Hfail.
  - simpl. rewrite Nat.add_0_r, app_nil_r. reflexivity.
  - assert (H0 := Hfail 0%nat ltac:(lia)). simpl in H0. rewrite app_nil_r in H0.
    change (map Z.of_nat (seq first (S k + len)))
      with (Z.of_nat first :: map Z.of_nat (seq (S first) (k + len))).
    destruct (snd (operation tr)) as [a|e] eqn:Hop; [discriminate|].
    rewrite (loop_step first _ tr e) by (lia || exact Hop).
    unfold bind. rewrite pause_sleeps
      by (specialize (Hsl O ltac:(lia)); rewrite Nat.add_0_r in Hsl; exact Hsl).
    rewrite IH.
    + rewrite <- !app_assoc. simpl.
      replace (first + S k)%nat with (S (first + k)) by lia. reflexivity.
    + lia.
    + intros j Hj. specialize (Hsl (S j) ltac:(lia)).
      replace (S first + j)%nat with (first + S j)%nat by lia. exact Hsl.
    + intros j Hj. specialize (Hfail (S j) ltac:(lia)). simpl in Hfail.
      rewrite <- !app_assoc. simpl. exact Hfail.
Qed.



(** After [k] retried failures one more attempt fails, retries are left,
    and the pause raises: what it raises leaves the loop. *)
Lemma loop_interrupted (k : nat) (e x : exn) (tr : Trace) :
  (k < n)%nat ->
  (forall j, (j < k)%nat -> sleepable d j) ->
  (forall j, (j < k)%nat ->
     is_ok (snd (operation (tr ++ retried call d 0 j))) = false) ->
  snd (operation (tr ++ retried call d 0 k)) = Raise e ->
  snd (pause d (Z.of_nat k) []) = Raise x ->
  loop (PyStr.range (Z.of_nat n + 1)) tr
  = (tr ++ retried call d 0 k ++ [call], Raise x).
Proof.
  intros Hk Hsl Hfail Hlast Hx. unfold PyStr.range.
  replace (Z.to_nat (Z.of_nat n + 1)) with (k + S (n - k))%nat by lia.
  rewrite loop_retries by (simpl; auto; lia).
  cbn [seq map Nat.add].
  rewrite (loop_step k _ _ e) by assumption.
  unfold bind. rewrite (pause_raises d (Z.of_nat k) x) by exact Hx.
  rewrite <- app_assoc. reflexivity.
Qed.

End Loop.

(** The two loops of the source are instances of the common shape. *)
Lemma connect_loop_is_retry (svc : Service) (self : DocToJira)
    (attempts : list Z) (tr : Trace) :
  _connect_to_jira_loop svc self attempts tr
  = retry_loop svc
      (JIRA_new svc (jira_base_url self) (jira_email self, jira_api_token self))
      (max_retries self) (retry_delay self)
      JiraConnectionError "Failed to connect to Jira after " attempts tr.
Proof.
  revert tr. induction attempts as [|attempt rest IH]; intros tr; simpl.
  - reflexivity.
  - unfold try_except, bind.
    destruct (JIRA_new svc (jira_base_url self)
                (jira_email self, jira_api_token self) tr) as [tr1 [a|e]].
    + reflexivity.
    + destruct (attempt <? max_retries self); [|reflexivity].
      unfold lift_result.
      destruct (backoff (retry_delay self) attempt) as [delay|e1]; [|reflexivity].
      destruct (sleep delay tr1) as [tr2 [[]|e2]].
      * apply IH.
      * reflexivity.
Qed.

Lemma create_loop_is_retry (svc : Service) (self : DocToJira)
    (fields : issue_fields) (attempts : list Z) (tr : Trace) :
  create_jira_issue_loop svc self fields attempts tr
  = retry_loop svc (create_operation svc self fields)
      (max_retries self) (retry_delay self)
      JiraIssueCreationError "Failed to create Jira issue after " attempts tr.
Proof.
  revert tr. induction attempts as [|attempt rest IH]; intros tr; simpl.
  - reflexivity.
  - unfold try_except, bind, create_operation, bind.
    destruct (create_issue svc self fields tr) as [tr1 [a|e]].
    + reflexivity.
    + simpl. destruct (attempt <? max_retries self); [|reflexivity].
      unfold lift_result.
      destruct (backoff (retry_delay self) attempt) as [delay|e1]; [|reflexivity].
      destruct (sleep delay tr1) as [tr2 [[]|e2]].
      * apply IH.
      * reflexivity.
Qed.

Lemma connect_one_call (svc : Service) (self : DocToJira) (tr : Trace) :
  fst (JIRA_new svc (jira_base_url self) (jira_email self, jira_api_token self) tr)
  = tr ++ [connect_call self].
Proof. reflexivity. Qed.

Lemma create_one_call (svc : Service) (self : DocToJira) (h : JIRA)
    (fields : issue_fields) (tr : Trace) :
  jira_client self = Some h ->
  fst (create_operation svc self fields tr) = tr ++ [CallCreateIssue h fields].
Proof.
  intros Hc. unfold create_operation, bind, create_issue, on_client.
  rewrite Hc. destruct (svc_create_issue svc tr h fields); reflexivity.
Qed.

Lemma create_operation_outcome (svc : Service) (self : DocToJira) (h : JIRA)
    (fields : issue_fields) (tr : Trace) :
  jira_client self = Some h ->
  snd (create_operation svc self fields tr)
  = match svc_create_issue svc tr h fields with
    | Ok issue => Ok (key issue)
    | Raise e => Raise e
    end.
Proof.
  intros Hc. unfold create_operation, bind, create_issue, on_client.
  rewrite Hc. destruct (svc_create_issue svc tr h fields); reflexivity.
Qed.

Lemma create_after_validation (svc : Service) (self : DocToJira)
    (summary description issuetype : string) (tr : Trace) :
  _validate_issue_input summary description issuetype = Ok tt ->
  create_jira_issue svc self summary description issuetype tr
  = create_jira_issue_loop svc self
      (trimmed_fields self summary description issuetype)
      (PyStr.range (max_retries self + 1)) tr.
Proof.
  intros Hv. unfold create_jira_issue, bind, lift_result. rewrite Hv.
  reflexivity.
Qed.






(** The answers of the server as the answers of the two operations. *)
Lemma create_failures (svc : Service) (self : DocToJira) (h : JIRA)
    (fields : issue_fields) (hist : Trace) :
  jira_client self = Some h ->
  is_ok (svc_create_issue svc hist h fields) = false ->
  is_ok (snd (create_operation svc self fields hist)) = false.
Proof.
  intros Hc Hf. rewrite (create_operation_outcome _ _ h) by exact Hc.
  destruct (svc_create_issue svc hist h fields); [discriminate | reflexivity].
Qed.

Lemma connect_interrupted (svc : Service) (self : DocToJira) (tr : Trace)
    (n k : nat) (e x : exn) :
  max_retries self = Z.of_nat n ->
  (k < n)%nat ->
  (forall j, (j < k)%nat -> sleepable (retry_delay self) j) ->
  (forall j, (j < k)%nat ->
     is_ok (connect_answer svc self
              (history tr (connect_call self) (retry_delay self) j)) = false) ->
  connect_answer svc self (history tr (connect_call self) (retry_delay self) k)
  = Raise e ->
  snd (pause (retry_delay self) (Z.of_nat k) []) = Raise x ->
  _connect_to_jira svc self tr
  = (tr ++ retried (connect_call self) (retry_delay self) 0 k ++ [connect_call self],
     Raise x).
Proof.
  intros Hn Hk Hsl Hfail Hlast Hx. unfold _connect_to_jira.
  rewrite connect_loop_is_retry, Hn.
  apply (loop_interrupted svc _ (connect_call self) n (retry_delay self) _ _
           (connect_one_call svc self) k e x tr); assumption.
Qed.

Lemma create_interrupted (svc : Service) (self : DocToJira) (h : JIRA)
    (summary description issuetype : string) (tr : Trace)
    (n k : nat) (e x : exn) :
  max_retries self = Z.of_nat n ->
  (k < n)%nat ->
  jira_client self = Some h ->
  _validate_issue_input summary description issuetype = Ok tt ->
  (forall j, (j < k)%nat -> sleepable (retry_delay self) j) ->
  (forall j, (j < k)%nat ->
     is_ok (create_answer svc self h summary description issuetype
              (history tr (create_call self h summary description issuetype)
                 (retry_delay self) j)) = false) ->
  create_answer svc self h summary description issuetype
    (history tr (create_call self h summary description issuetype)
       (retry_delay self) k) = Raise e ->
  snd (pause (retry_delay self) (Z.of_nat k) []) = Raise x ->
  create_jira_issue svc self summary description issuetype tr
  = (tr ++ retried (create_call self h summary description issuetype)
             (retry_delay self) 0 k
        ++ [create_call self h summary description issuetype],
     Raise x).
Proof.
  intros Hn Hk Hc Hv Hsl Hfail Hlast Hx.
  rewrite create_after_validation by exact Hv.
  rewrite create_loop_is_retry, Hn.
  apply (loop_interrupted svc _ (create_call self h summary description issuetype)
           n (retry_delay self) _ _
           (fun tr0 => create_one_call svc self h _ tr0 Hc) k e x tr);
    try assumption.
  - intros j Hj. apply (create_failures svc self h); [exact Hc|].
    apply Hfail. exact Hj.
  - rewrite (create_operation_outcome _ _ h) by exact Hc.
    unfold create_answer, history in Hlast. rewrite Hlast. reflexivity.
Qed.

(** ** The retry loops against any server *)

Section AnyServer.

Context {A : Type}.
Variable svc : Service.
Variable operation : M Trace A.
Variable call : event.
Variable n : nat.
Variable d : Q.
Variable terminal : exn_class.
Variable what : string.

Hypothesis one_call : forall tr, fst (operation tr) = tr ++ [call].

Local Abbreviation loop := (retry_loop svc operation (Z.of_nat n) d terminal what).

(** Whatever the operation answers, the loop makes [k] retried attempts and
    one last attempt, and ends in one of the three ways of [loop_outcome]. *)
Lemma loop_shape (len : nat) :
  forall (first : nat) (tr : Trace),
    (first + len = S n)%nat -> (0 < len)%nat ->
    exists k : nat,
      (first + k <= n)%nat
      /\ fst (loop (map Z.of_nat (seq first len)) tr)
         = tr ++ retried call d first k ++ [call]
      /\ loop_outcome terminal what n d (first + k)
           (snd (operation (tr ++ retried call d first k)))
           (snd (loop (map Z.of_nat (seq first len)) tr)).
Proof.
  induction len as [|len IH]; intros first tr Hlen Hpos; [lia|].
  cbn [seq map].
  destruct (snd (operation tr)) as [a|e] eqn:Hop.
  - exists O. rewrite Nat.add_0_r. simpl retried. rewrite app_nil_r, Hop.
    cbn [retry_loop]. unfold try_except, bind.
    pose proof (one_call tr) as Hc.
    destruct (operation tr) as [tr1 r1]; simpl in Hc, Hop; subst tr1 r1.
    repeat split; [lia|]. apply (Returned _ _ _ _ _ _ a). reflexivity.
  - destruct (Nat.lt_ge_cases first n) as [Hlt|Hge].
    + rewrite (loop_step svc operation call n d terminal what one_call
                 first _ tr e Hlt Hop).
      unfold bind.
      destruct (pause_cases d first (tr ++ [call])) as [Hp | (x & Hp & Hx)];
        rewrite Hp.
      * destruct (IH (S first) ((tr ++ [call]) ++ [Sleep (delay_at d first)])
                    ltac:(lia) ltac:(lia))
          as (k & Hk & Hfst & Hout).
        exists (S k). split; [lia|].
        replace (first + S k)%nat with (S first + k)%nat by lia.
        cbn [retried]. rewrite <- !app_assoc in Hfst, Hout. simpl in Hfst, Hout.
        rewrite <- !app_assoc. simpl. split; assumption.
      * exists O. rewrite Nat.add_0_r. simpl retried. rewrite app_nil_r, Hop.
        repeat split; [lia|].
        apply (Interrupted _ _ _ _ _ _ e x); [reflexivity | exact Hlt | exact Hx].
    + assert (first = n) as -> by lia.
      exists O. rewrite Nat.add_0_r. simpl retried. rewrite app_nil_r, Hop.
      cbn [retry_loop]. unfold try_except, bind.
      pose proof (one_call tr) as Hc.
      destruct (operation tr) as [tr1 r1]; simpl in Hc, Hop; subst tr1 r1.
      rewrite Z.ltb_irrefl. unfold raise.
      repeat split; [lia|].
      apply (Exhausted _ _ _ _ _ _ e); reflexivity.
Qed.

Lemma range_shape (tr : Trace) :
  exists k : nat,
    (k <= n)%nat
    /\ fst (loop (PyStr.range (Z.of_nat n + 1)) tr)
       = tr ++ retried call d 0 k ++ [call]
    /\ loop_outcome terminal what n d k
         (snd (operation (tr ++ retried call d 0 k)))
         (snd (loop (PyStr.range (Z.of_nat n + 1)) tr)).
Proof.
  unfold PyStr.range.
  replace (Z.to_nat (Z.of_nat n + 1)) with (S n) by lia.
  destruct (loop_shape (S n) 0 tr ltac:(lia) ltac:(lia)) as (k & Hk & Hfst & Hout).
  exists k. repeat split; [lia | exact Hfst | exact Hout].
Qed.

End AnyServer.

Lemma connect_shape (svc : Service) (self : DocToJira) (tr : Trace) (n : nat) :
  max_retries self = Z.of_nat n ->
  exists k : nat,
    (k <= n)%nat
    /\ fst (_connect_to_jira svc self tr)
       = tr ++ retried (connect_call self) (retry_delay self) 0 k
            ++ [connect_call self]
    /\ loop_outcome JiraConnectionError "Failed to connect to Jira after "
         n (retry_delay self) k
         (connect_answer svc self
            (history tr (connect_call self) (retry_delay self) k))
         (snd (_connect_to_jira svc self tr)).
Proof.
  intros Hn. unfold _connect_to_jira.
  rewrite connect_loop_is_retry, Hn.
  apply (range_shape svc
           (JIRA_new svc (jira_base_url self) (jira_email self, jira_api_token self))
           (connect_call self)).
  intros tr0. reflexivity.
Qed.

Lemma create_shape (svc : Service) (self : DocToJira) (h : JIRA)
    (summary description issuetype : string) (tr : Trace) (n : nat) :
  max_retries self = Z.of_nat n ->
  jira_client self = Some h ->
  _validate_issue_input summary description issuetype = Ok tt ->
  exists k : nat,
    (k <= n)%nat
    /\ fst (create_jira_issue svc self summary description issuetype tr)
       = tr ++ retried (create_call self h summary description issuetype)
                 (retry_delay self) 0 k
            ++ [create_call self h summary description issuetype]
    /\ loop_outcome JiraIssueCreationError "Failed to create Jira issue after "
         n (retry_delay self) k
         (snd (create_operation svc self
                 (trimmed_fields self summary description issuetype)
                 (history tr (create_call self h summary description issuetype)
                    (retry_delay self) k)))
         (snd (create_jira_issue svc self summary description issuetype tr)).
Proof.
  intros Hn Hc Hv.
  rewrite create_after_validation by exact Hv.
  rewrite create_loop_is_retry, Hn.
  apply (range_shape svc
           (create_operation svc self
              (trimmed_fields self summary description issuetype))
           (create_call self h summary description issuetype)).
  intros tr0. apply create_one_call. exact Hc.
Qed.

(** ** Substrings *)






(** ** Exhaustion and success of the retry loops *)








(** The run of the test suite: two retries from a delay of half a second
    sleep 0.5 and 1 second. *)
Example half_second_doubles :
  Forall2 Qeq
    (sleeps (fst (_connect_to_jira Examples.failing (Examples.client 2 (1 # 2)) [])))
    [1 # 2; 1]%Q
  /\ Forall2 Qeq
       (sleeps (fst (create_jira_issue Examples.failing (Examples.client 2 (1 # 5))
                       "Test Issue" "Test Description" "Bug" [])))
       [1 # 5; 2 # 5]%Q.
Proof. split; repeat constructor. Qed.




(** The run of the test suite: a connection that succeeds at the third
    attempt sleeps 1 and 2 seconds. *)
Example one_second_doubles :
  Forall2 Qeq
    (sleeps (fst (_connect_to_jira (Examples.failing_first 2)
                    (Examples.client 3 1) [])))
    [1; 2]%Q
  /\ snd (_connect_to_jira (Examples.failing_first 2) (Examples.client 3 1) [])
     = Ok (Some (Handle 7)).
Proof. split; [repeat constructor | reflexivity]. Qed.


(** ** The error of exhaustion *)




(** ** White space *)

Lemma strip_empty_iff_blank (s : string) :
  PyStr.is_empty (PyStr.strip s) = PyStr.blank s.
Proof.
  unfold PyStr.strip. induction s as [|c s IH]; simpl.
  - reflexivity.
  - destruct (PyStr.isspace c) eqn:Hc; simpl.
    + exact IH.
    + destruct (PyStr.rstrip s); [rewrite Hc|]; reflexivity.
Qed.

Lemma lstrip_split (s : string) :
  exists lead : string,
    s = (lead ++ PyStr.lstrip s)%string /\ PyStr.blank lead = true
    /\ starts_with_space (PyStr.lstrip s) = false.
Proof.
  induction s as [|c s (lead & Hs & Hb & Hst)]; simpl.
  - exists EmptyString. repeat split.
  - destruct (PyStr.isspace c) eqn:Hc.
    + exists (String c lead). simpl. rewrite Hc, Hb, <- Hs. repeat split.
      exact Hst.
    + exists EmptyString. simpl. repeat split. exact Hc.
Qed.

Lemma rstrip_split (s : string) :
  exists trail : string,
    s = (PyStr.rstrip s ++ trail)%string /\ PyStr.blank trail = true
    /\ ends_with_space (PyStr.rstrip s) = false.
Proof.
  induction s as [|c s (trail & Hs & Hb & He)]; simpl.
  - exists EmptyString. repeat split.
  - destruct (PyStr.rstrip s) as [|a r] eqn:Hr.
    + simpl in Hs. subst trail. destruct (PyStr.isspace c) eqn:Hc.
      * exists (String c s). simpl. rewrite Hc, Hb. repeat split.
      * exists s. simpl. repeat split; assumption.
    + exists trail. repeat split.
      * simpl. simpl in Hs. rewrite <- Hs. reflexivity.
      * exact Hb.
      * exact He.
Qed.

Lemma rstrip_keeps_start (s : string) :
  starts_with_space s = false -> starts_with_space (PyStr.rstrip s) = false.
Proof.
  destruct s as [|c s]; simpl.
  - reflexivity.
  - intros Hc. destruct (PyStr.rstrip s); [rewrite Hc|]; exact Hc.
Qed.

(** [strip] removes the leading and the trailing white space and nothing
    else. *)
Lemma strip_trimmed (s : string) : trimmed s (PyStr.strip s).
Proof.
  destruct (lstrip_split s) as (lead & Hs & Hlead & Hstart).
  destruct (rstrip_split (PyStr.lstrip s)) as (trail & Hl & Htrail & Hend).
  exists lead, trail. unfold PyStr.strip. repeat split.
  - rewrite <- Hl. exact Hs.
  - exact Hlead.
  - exact Htrail.
  - apply rstrip_keeps_start. exact Hstart.
  - exact Hend.
Qed.

(** ** The client *)

Lemma validation_error_class (summary description issuetype : string) (e : exn) :
  _validate_issue_input summary description issuetype = Raise e ->
  exn_cls e = JiraValidationError.
Proof.
  unfold _validate_issue_input.
  match goal with
  | |- match ?errors with _ => _ end = _ -> _ => destruct errors
  end; [discriminate|].
  intros H. injection H as <-. reflexivity.
Qed.

(** C7.  A request that fails validation makes [create_jira_issue] raise the
    [JiraValidationError] at once: the trace is left as it was, so the server
    is not called, nothing is retried and nothing is slept.  The retry loop
    is entered only when validation has succeeded. *)
Theorem invalid_request_is_rejected_before_any_call
    (svc : Service) (self : DocToJira)
    (summary description issuetype : string) (tr : Trace) :
  match _validate_issue_input summary description issuetype with
  | Raise e =>
      create_jira_issue svc self summary description issuetype tr
      = (tr, Raise e)
      /\ exn_cls e = JiraValidationError
  | Ok _ =>
      create_jira_issue svc self summary description issuetype tr
      = create_jira_issue_loop svc self
          (trimmed_fields self summary description issuetype)
          (PyStr.range (max_retries self + 1)) tr
  end.
Proof.
  destruct (_validate_issue_input summary description issuetype) as [[]|e] eqn:Hv.
  - apply create_after_validation. exact Hv.
  - split.
    + unfold create_jira_issue, bind, lift_result. rewrite Hv. reflexivity.
    + exact (validation_error_class _ _ _ _ Hv).
Qed.

(** C9.  [test_connection] never raises: it returns [True] when the probe
    of the current user succeeds and [False] when it fails.
    [get_project_info] never raises: it returns the record of key, name,
    description and lead when the project is fetched and [None] when the
    fetch fails. *)
Theorem probes_never_raise (svc : Service) (self : DocToJira) (tr : Trace) :
  snd (test_connection svc self tr)
  = Ok (is_ok (snd (current_user svc self tr)))
  /\ snd (get_project_info svc self tr)
     = Ok match snd (project svc self (jira_project_key self) tr) with
          | Ok p => Some (info_of p)
          | Raise _ => None
          end.
Proof.
  split.
  - unfold test_connection, try_except, bind.
    destruct (current_user svc self tr) as [tr1 [u|e]]; reflexivity.
  - unfold get_project_info, try_except, bind.
    destruct (project svc self (jira_project_key self) tr) as [tr1 [p|e]];
      reflexivity.
Qed.

(** What the issue creation loop does on a connected client, whatever the
    server answers: it only submits [fields] and sleeps, and a key it returns
    is the key of the issue the server returned to the last call. *)
Lemma create_loop_calls (svc : Service) (self : DocToJira) (h : JIRA)
    (fields : issue_fields) (attempts : list Z) :
  jira_client self = Some h ->
  forall tr : Trace,
  exists new : Trace,
    fst (create_jira_issue_loop svc self fields attempts tr) = tr ++ new
    /\ Forall (fun ev => ev = CallCreateIssue h fields \/ is_sleep ev = true) new
    /\ (forall k,
          snd (create_jira_issue_loop svc self fields attempts tr) = Ok (Some k) ->
          exists hist issue,
            fst (create_jira_issue_loop svc self fields attempts tr)
            = hist ++ [CallCreateIssue h fields]
            /\ svc_create_issue svc hist h fields = Ok issue
            /\ key issue = k).
Proof.
  intros Hc. induction attempts as [|attempt rest IH]; intros tr.
  - exists []. simpl. rewrite app_nil_r. repeat split.
    + constructor.
    + intros k Hk. discriminate.
  - simpl. unfold try_except, bind, create_issue, on_client. rewrite Hc.
    destruct (svc_create_issue svc tr h fields) as [issue|e] eqn:Hsvc.
    + exists [CallCreateIssue h fields]. simpl. repeat split.
      * constructor; [left; reflexivity | constructor].
      * intros k Hk. injection Hk as <-. exists tr, issue. repeat split.
        exact Hsvc.
    + destruct (attempt <? max_retries self).
      * unfold lift_result.
        destruct (backoff (retry_delay self) attempt) as [delay|x].
        -- unfold sleep.
           destruct (Qle_bool sleep_limit delay
                     || negb (Qle_bool sleep_floor delay));
             [|destruct (Qle_bool 0 delay)].
           ++ exists [CallCreateIssue h fields]. simpl. repeat split.
              ** constructor; [left; reflexivity | constructor].
              ** intros k Hk. discriminate.
           ++ destruct (IH ((tr ++ [CallCreateIssue h fields]) ++ [Sleep delay]))
                as (new & Hfst & Hall & Hkey).
              exists (CallCreateIssue h fields :: Sleep delay :: new).
              repeat split.
              ** rewrite Hfst, <- !app_assoc. reflexivity.
              ** constructor; [left; reflexivity|].
                 constructor; [right; reflexivity | exact Hall].
              ** exact Hkey.
           ++ exists [CallCreateIssue h fields]. simpl. repeat split.
              ** constructor; [left; reflexivity | constructor].
              ** intros k Hk. discriminate.
        -- exists [CallCreateIssue h fields]. simpl. repeat split.
           ++ constructor; [left; reflexivity | constructor].
           ++ intros k Hk. discriminate.
      * exists [CallCreateIssue h fields]. simpl. repeat split.
        -- constructor; [left; reflexivity | constructor].
        -- intros k Hk. discriminate.
Qed.

(** C10.  For a valid request on a connected client, every call
    [create_jira_issue] makes to the server submits the configured project
    key with the summary, the description and the issue type trimmed of
    their leading and trailing white space; a key it returns is the key of
    the issue the server returned to the last of these calls, and when the
    server accepts the first call that key is returned at once. *)
Theorem valid_request_submits_trimmed_fields
    (svc : Service) (self : DocToJira) (h : JIRA)
    (summary description issuetype : string) (tr : Trace) :
  jira_client self = Some h ->
  _validate_issue_input summary description issuetype = Ok tt ->
  exists (fields : issue_fields) (new : Trace),
    f_project_key fields = jira_project_key self
    /\ trimmed summary (f_summary fields)
    /\ trimmed description (f_description fields)
    /\ trimmed issuetype (f_issuetype_name fields)
    /\ fst (create_jira_issue svc self summary description issuetype tr)
       = tr ++ new
    /\ Forall (fun ev => ev = CallCreateIssue h fields \/ is_sleep ev = true) new
    /\ (forall k,
          snd (create_jira_issue svc self summary description issuetype tr)
          = Ok (Some k) ->
          exists hist issue,
            fst (create_jira_issue svc self summary description issuetype tr)
            = hist ++ [CallCreateIssue h fields]
            /\ svc_create_issue svc hist h fields = Ok issue
            /\ key issue = k)
    /\ (forall issue,
          0 <= max_retries self ->
          svc_create_issue svc tr h fields = Ok issue ->
          create_jira_issue svc self summary description issuetype tr
          = (tr ++ [CallCreateIssue h fields], Ok (Some (key issue)))).
Proof.
  intros Hc Hv.
  exists (trimmed_fields self summary description issuetype).
  rewrite create_after_validation by exact Hv.
  destruct (create_loop_calls svc self h
              (trimmed_fields self summary description issuetype)
              (PyStr.range (max_retries self + 1)) Hc tr)
    as (new & Hfst & Hall & Hkey).
  exists new. repeat split; try apply strip_trimmed; try assumption.
  intros issue Hn Hsvc. unfold PyStr.range.
  destruct (Z.to_nat (max_retries self + 1)) as [|m] eqn:Hm; [lia|].
  simpl. unfold try_except, bind, create_issue, on_client.
  rewrite Hc, Hsvc. reflexivity.
Qed.

Lemma valid_request_witness :
  exists (fields : issue_fields) (new : Trace),
    f_project_key fields = Some "TEST"
    /\ trimmed "  Test Issue " (f_summary fields)
    /\ trimmed "Test Description" (f_description fields)
    /\ trimmed " Bug" (f_issuetype_name fields)
    /\ fst (create_jira_issue (Examples.failing_first 0) (Examples.client 3 1)
              "  Test Issue " "Test Description" " Bug" [])
       = [] ++ new
    /\ Forall (fun ev => ev = CallCreateIssue (Handle 0) fields
                         \/ is_sleep ev = true) new
    /\ (forall k,
          snd (create_jira_issue (Examples.failing_first 0) (Examples.client 3 1)
                 "  Test Issue " "Test Description" " Bug" [])
          = Ok (Some k) ->
          exists hist issue,
            fst (create_jira_issue (Examples.failing_first 0)
                   (Examples.client 3 1)
                   "  Test Issue " "Test Description" " Bug" [])
            = hist ++ [CallCreateIssue (Handle 0) fields]
            /\ svc_create_issue (Examples.failing_first 0) hist (Handle 0) fields
               = Ok issue
            /\ key issue = k)
    /\ (forall issue,
          0 <= max_retries (Examples.client 3 1) ->
          svc_create_issue (Examples.failing_first 0) [] (Handle 0) fields
          = Ok issue ->
          create_jira_issue (Examples.failing_first 0) (Examples.client 3 1)
            "  Test Issue " "Test Description" " Bug" []
          = ([] ++ [CallCreateIssue (Handle 0) fields], Ok (Some (key issue)))).
Proof.
  apply (valid_request_submits_trimmed_fields
           (Examples.failing_first 0) (Examples.client 3 1) (Handle 0)
           "  Test Issue " "Test Description" " Bug" []);
    reflexivity.
Defined.

(** ** The validators *)

Lemma empty_or_blank (s : string) :
  PyStr.is_empty s || PyStr.is_empty (PyStr.strip s) = PyStr.blank s.
Proof.
  destruct s as [|c s].
  - reflexivity.
  - cbn [PyStr.is_empty orb]. apply strip_empty_iff_blank.
Qed.

Lemma blank_strip_empty (s : string) :
  PyStr.blank s = true -> PyStr.strip s = EmptyString.
Proof.
  intros H. rewrite <- strip_empty_iff_blank in H.
  destruct (PyStr.strip s); [reflexivity | discriminate].
Qed.

(** C5.  The issue request validator checks every rule: summary empty or
    blank, summary longer than 255 characters after trimming, description
    empty or blank, issue type empty or blank.  It succeeds when no rule is
    violated; otherwise it raises a [JiraValidationError] whose text joins
    the messages of all the violated rules, so each of them occurs in it.
    The five requests of the specification are rejected with the messages
    that belong to them. *)
Theorem issue_request_validator_reports_every_violation :
  (forall summary description issuetype : string,
     _validate_issue_input summary description issuetype
     = match violations summary description issuetype with
       | [] => Ok tt
       | errors =>
           Raise (Exception JiraValidationError
                    ("Input validation failed: " ++ PyStr.join "; " errors)
                    None)
       end
     /\ Forall
          (fun message =>
             PyStr.contains message
               ("Input validation failed: "
                ++ PyStr.join "; " (violations summary description issuetype))
             = true)
          (violations summary description issuetype))
  /\ _validate_issue_input "" "d" "Bug"
     = Raise (Exception JiraValidationError
                "Input validation failed: Summary cannot be empty" None)
  /\ _validate_issue_input "s" "" "Bug"
     = Raise (Exception JiraValidationError
                "Input validation failed: Description cannot be empty" None)
  /\ _validate_issue_input "s" "d" ""
     = Raise (Exception JiraValidationError
                "Input validation failed: Issue type cannot be empty" None)
  /\ _validate_issue_input (PyStr.repeat_char "x" 256) "d" "Bug"
     = Raise (Exception JiraValidationError
                "Input validation failed: Summary cannot exceed 255 characters"
                None)
  /\ _validate_issue_input "" "" ""
     = Raise (Exception JiraValidationError
                "Input validation failed: Summary cannot be empty; Description cannot be empty; Issue type cannot be empty"
                None).
Proof.
  split; [|repeat split; vm_compute; reflexivity].
  intros summary description issuetype.
  unfold _validate_issue_input, violations, append_if.
  rewrite !empty_or_blank, Z.gtb_ltb.
  destruct (PyStr.blank summary) eqn:Hs.
  - rewrite (blank_strip_empty _ Hs).
    change (255 <? PyStr.len "") with false.
    destruct (PyStr.blank description), (PyStr.blank issuetype);
      (split; [reflexivity | repeat constructor]).
  - destruct (255 <? PyStr.len (PyStr.strip summary)),
      (PyStr.blank description), (PyStr.blank issuetype);
      (split; [reflexivity | repeat constructor]).
Qed.

(** C6.  The configuration validator succeeds exactly when the four
    credentials are all present and non-empty.  Otherwise it raises one
    [JiraConfigurationError]; its text lists the names of all the missing or
    empty credentials, and the name of a credential occurs in it exactly when
    that credential is missing or empty. *)
Theorem configuration_validator_names_every_missing_credential
    (self : DocToJira) :
  is_ok (_validate_configuration self)
  = forallb (fun c => negb (falsy (snd c))) (credentials self)
  /\ match _validate_configuration self with
     | Ok _ => missing self = []
     | Raise e =>
         exn_cls e = JiraConfigurationError
         /\ exn_str e
            = ("Missing required environment variables: "
               ++ PyStr.join ", " (missing self)
               ++ ". Please ensure all Jira credentials are configured.")%string
         /\ Forall
              (fun c => PyStr.contains (fst c) (exn_str e) = falsy (snd c))
              (credentials self)
     end.
Proof.
  destruct self as [n d url email token project client].
  unfold _validate_configuration, missing, credentials, append_if.
  cbn [jira_base_url jira_email jira_api_token jira_project_key
       forallb filter map fst snd].
  destruct (falsy url) eqn:H1, (falsy email) eqn:H2,
    (falsy token) eqn:H3, (falsy project) eqn:H4;
    (split; [reflexivity|]);
    cbn [app filter map fst snd exn_cls exn_str];
    try reflexivity;
    (split; [reflexivity|]); (split; [reflexivity|]);
    repeat (apply Forall_cons;
            [cbn [fst snd]; rewrite ?H1, ?H2, ?H3, ?H4; vm_compute; reflexivity|]);
    apply Forall_nil.
Qed.

(** The two cases of the test suite: two credentials missing, all missing. *)
Example configuration_missing_two :
  _validate_configuration
    {| max_retries := 3; retry_delay := 1;
       jira_base_url := Some "https://test.atlassian.net";
       jira_email := Some "test@example.com";
       jira_api_token := None; jira_project_key := None;
       jira_client := None |}
  = Raise (Exception JiraConfigurationError
             "Missing required environment variables: JIRA_API_TOKEN, JIRA_PROJECT_KEY. Please ensure all Jira credentials are configured."
             None).
Proof. reflexivity. Qed.

(** ** The batch loop *)

Lemma dict_get_absent (items : list (string * pyval)) (k : string)
    (default : pyval) :
  (forall v, ~ In (k, v) items) -> dict_get items k default = default.
Proof.
  induction items as [|[k' v'] items IH]; intros Habs; simpl.
  - reflexivity.
  - destruct (String.eqb_spec k' k) as [->|Hneq].
    + exfalso. apply (Habs v'). left. reflexivity.
    + apply IH. intros v Hin. apply (Habs v). right. exact Hin.
Qed.

(** What [process_entry] does with a record whose three fields are strings,
    for any texts of the two reasons. *)
Lemma process_entry_of_strings (svc : Service) (jira : DocToJira) (i : Z)
    (items : list (string * pyval)) (st : BatchState)
    (summary description issuetype : string) :
  py_strip (dict_get items "user_story" (PStr "")) = Ok summary ->
  py_strip (dict_get items "deliverables" (PStr "")) = Ok description ->
  py_strip (dict_get items "issue_type" (PStr "Story")) = Ok issuetype ->
  process_entry svc jira i (PDict items) st
  = (entry_outcome svc jira i items st
       "Missing or empty 'user_story'" "Missing or empty 'deliverables'"
       summary description issuetype,
     Ok tt).
Proof.
  intros Hs Hd Ht.
  unfold process_entry, entry_outcome, try_except, bind, lift_result.
  cbn [py_get bind_result]. rewrite Hs, Hd, Ht.
  destruct (PyStr.is_empty summary); [reflexivity|].
  destruct (PyStr.is_empty description); [reflexivity|].
  unfold on_trace.
  destruct (create_jira_issue svc jira summary description issuetype (trace st))
    as [tr' [issue_key|e]].
  - reflexivity.
  - destruct (exn_cls e); reflexivity.
Qed.

(** C4, as the code has it.  For an entry that is a record whose
    ['user_story'], ['deliverables'] and ['issue_type'] values, where
    present, are strings: the summary, the description and the issue type are
    the trimmed values of these keys, the issue type being ["Story"] when the
    key is absent.  An empty summary appends the entry to [skipped] with the
    reason ["Missing or empty 'user_story'"] and leaves the trace as it was;
    otherwise an empty description appends it to [skipped] with the reason
    ["Missing or empty 'deliverables'"], again without a call; only otherwise
    is [create_jira_issue] called, with these three values. *)
Theorem entry_is_skipped_or_submitted
    (svc : Service) (jira : DocToJira) (i : Z)
    (items : list (string * pyval)) (st : BatchState)
    (summary description issuetype : string) :
  py_strip (dict_get items "user_story" (PStr "")) = Ok summary ->
  py_strip (dict_get items "deliverables" (PStr "")) = Ok description ->
  py_strip (dict_get items "issue_type" (PStr "Story")) = Ok issuetype ->
  process_entry svc jira i (PDict items) st
  = (entry_outcome svc jira i items st
       "Missing or empty 'user_story'" "Missing or empty 'deliverables'"
       summary description issuetype,
     Ok tt)
  /\ ((forall v, ~ In ("issue_type", v) items) -> issuetype = "Story")
  /\ (summary = "" ->
      process_entry svc jira i (PDict items) st
      = (with_skipped st i "Missing or empty 'user_story'", Ok tt))
  /\ (summary <> "" -> description = "" ->
      process_entry svc jira i (PDict items) st
      = (with_skipped st i "Missing or empty 'deliverables'", Ok tt))
  /\ (summary <> "" -> description <> "" ->
      trace (fst (process_entry svc jira i (PDict items) st))
      = fst (create_jira_issue svc jira summary description issuetype (trace st))).
Proof.
  intros Hs Hd Ht.
  rewrite (process_entry_of_strings svc jira i items st _ _ _ Hs Hd Ht).
  split; [reflexivity|]. split; [|split; [|split]].
  - intros Habs. rewrite dict_get_absent in Ht by exact Habs.
    injection Ht as <-. reflexivity.
  - intros ->. reflexivity.
  - intros Hne ->. unfold entry_outcome.
    destruct summary; [congruence | reflexivity].
  - intros Hns Hnd. unfold entry_outcome.
    destruct summary; [congruence|]. destruct description; [congruence|].
    cbn [PyStr.is_empty fst].
    destruct (create_jira_issue svc jira _ _ issuetype (trace st))
      as [tr' [issue_key|e]]; reflexivity.
Qed.

Lemma entry_is_skipped_or_submitted_witness :
  process_entry (Examples.failing_first 0) (Examples.client 3 1) 2
    (PDict [("deliverables", PStr "C")]) Examples.no_results
  = (with_skipped Examples.no_results 2 "Missing or empty 'user_story'", Ok tt).
Proof.
  destruct (entry_is_skipped_or_submitted
              (Examples.failing_first 0) (Examples.client 3 1) 2
              [("deliverables", PStr "C")] Examples.no_results
              "" "C" "Story" eq_refl eq_refl eq_refl)
    as (_ & _ & Hskip & _).
  apply Hskip. reflexivity.
Defined.

(** The claim C4 as stated fails twice.  The reason recorded for a missing
    summary is not ["missing user_story"]; and whatever the reason, a record
    without a summary whose ['issue_type'] is not a string is appended to
    [failed], since all three fields are extracted before the summary is
    looked at. *)
Lemma skip_rule_counterexample :
  ~ skips_missing_summary "missing user_story"
  /\ ~ skips_missing_summary "Missing or empty 'user_story'"
  /\ process_entry (Examples.failing_first 0) (Examples.client 3 1) 2
       (PDict [("deliverables", PStr "C")]) Examples.no_results
     = (with_skipped Examples.no_results 2 "Missing or empty 'user_story'", Ok tt)
  /\ process_entry (Examples.failing_first 0) (Examples.client 3 1) 1
       (PDict [("issue_type", PInt 5)]) Examples.no_results
     = (with_failed Examples.no_results [] 1
          "'int' object has no attribute 'strip'" (PStr "Unknown"), Ok tt).
Proof.
  split; [|split; [|split; reflexivity]].
  - intros H.
    specialize (H (Examples.failing_first 0) (Examples.client 3 1) 2
                  [("deliverables", PStr "C")] Examples.no_results eq_refl).
    discriminate H.
  - intros H.
    specialize (H (Examples.failing_first 0) (Examples.client 3 1) 1
                  [("issue_type", PInt 5)] Examples.no_results eq_refl).
    discriminate H.
Qed.

(** *** Batches of records *)

(** One record goes to exactly one bucket, under its position, and the loop
    body ends normally. *)
Lemma process_entry_of_record (svc : Service) (jira : DocToJira) (i : Z)
    (items : list (string * pyval)) (st : BatchState) :
  exists (b : bucket) (st' : BatchState),
    process_entry svc jira i (PDict items) st = (st', Ok tt)
    /\ created_entries (results st')
       = created_entries (results st) ++ positions Created i [b]
    /\ failed_entries (results st')
       = failed_entries (results st) ++ positions Failed i [b]
    /\ skipped_entries (results st')
       = skipped_entries (results st) ++ positions Skipped i [b].
Proof.
  unfold process_entry, try_except, bind, lift_result.
  cbn [py_get bind_result].
  assert (Hfail : forall s e,
            exists b st',
              match exn_cls e with
              | JiraValidationError => record_failure i (PDict items) e
              | JiraIssueCreationError => record_failure i (PDict items) e
              | _ => record_failure i (PDict items) e
              end s = (st', Ok tt)
              /\ created_entries (results st')
                 = created_entries (results s) ++ positions Created i [b]
              /\ failed_entries (results st')
                 = failed_entries (results s) ++ positions Failed i [b]
              /\ skipped_entries (results st')
                 = skipped_entries (results s) ++ positions Skipped i [b]).
  { intros s e. exists Failed. eexists. split.
    - destruct (exn_cls e); reflexivity.
    - unfold created_entries, failed_entries, skipped_entries.
      cbn. rewrite map_app, !app_nil_r. repeat split. }
  assert (Hskip : forall reason,
            exists b st',
              append_skipped {| skipped_entry := i; skipped_reason := reason |} st
              = (st', Ok tt)
              /\ created_entries (results st')
                 = created_entries (results st) ++ positions Created i [b]
              /\ failed_entries (results st')
                 = failed_entries (results st) ++ positions Failed i [b]
              /\ skipped_entries (results st')
                 = skipped_entries (results st) ++ positions Skipped i [b]).
  { intros reason. exists Skipped. eexists. split; [reflexivity|].
    unfold created_entries, failed_entries, skipped_entries.
    cbn. rewrite map_app, !app_nil_r. repeat split. }
  destruct (py_strip (dict_get items "user_story" (PStr ""))) as [summary|e1];
    [|apply Hfail].
  destruct (py_strip (dict_get items "deliverables" (PStr ""))) as [description|e2];
    [|apply Hfail].
  destruct (py_strip (dict_get items "issue_type" (PStr "Story"))) as [issuetype|e3];
    [|apply Hfail].
  destruct (PyStr.is_empty summary); [apply Hskip|].
  destruct (PyStr.is_empty description); [apply Hskip|].
  unfold on_trace.
  destruct (create_jira_issue svc jira summary description issuetype (trace st))
    as [tr' [issue_key|e]].
  - exists Created. eexists. split; [reflexivity|].
    unfold created_entries, failed_entries, skipped_entries.
    cbn. rewrite map_app, !app_nil_r. repeat split.
  - destruct (Hfail {| trace := tr'; results := results st |} e)
      as (b & st' & Hrun & Hres).
    exists b, st'. split; assumption.
Qed.

Lemma positions_cons (b o : bucket) (i : Z) (outcome : list bucket) :
  positions b i (o :: outcome) = positions b i [o] ++ positions b (i + 1) outcome.
Proof. simpl. destruct (bucket_eqb o b); reflexivity. Qed.

(** In a batch of records every entry is processed and goes to exactly one
    bucket under its position, in input order: [outcome] names the bucket of
    each entry. *)
Lemma batch_of_records_is_complete (svc : Service) (jira : DocToJira)
    (user_stories : list pyval) :
  forallb is_dict user_stories = true ->
  forall (i : Z) (st : BatchState),
  exists (outcome : list bucket) (st' : BatchState),
    for_entries svc jira i user_stories st = (st', Ok tt)
    /\ List.length outcome = List.length user_stories
    /\ created_entries (results st')
       = created_entries (results st) ++ positions Created i outcome
    /\ failed_entries (results st')
       = failed_entries (results st) ++ positions Failed i outcome
    /\ skipped_entries (results st')
       = skipped_entries (results st) ++ positions Skipped i outcome.
Proof.
  induction user_stories as [|entry rest IH]; intros Hall i st.
  - exists [], st. simpl. rewrite !app_nil_r. repeat split.
  - simpl in Hall. apply andb_prop in Hall. destruct Hall as [Hentry Hrest].
    destruct entry as [| | | | | |items]; try discriminate.
    destruct (process_entry_of_record svc jira i items st)
      as (b & st1 & Hrun & Hc & Hf & Hs).
    destruct (IH Hrest (i + 1) st1) as (outcome & st' & Hloop & Hlen & Hc' & Hf' & Hs').
    exists (b :: outcome), st'. split; [|split].
    + cbn [for_entries]. unfold bind. rewrite Hrun. exact Hloop.
    + simpl. rewrite Hlen. reflexivity.
    + rewrite (positions_cons Created b i outcome),
        (positions_cons Failed b i outcome),
        (positions_cons Skipped b i outcome),
        Hc', Hf', Hs', Hc, Hf, Hs, <- !app_assoc.
      repeat split.
Qed.

(** The positions of a bucket are those of the entries that went to it. *)
Lemma positions_spec (b : bucket) (outcome : list bucket) :
  forall (i k : Z),
    In k (positions b i outcome)
    <-> exists j : nat, nth_error outcome j = Some b /\ k = i + Z.of_nat j.
Proof.
  induction outcome as [|o outcome IH]; intros i k.
  - simpl. split; [tauto|]. intros [[|j] [H _]]; discriminate.
  - rewrite (positions_cons b o i outcome), in_app_iff, IH. simpl.
    split.
    + intros [H|[j [Hj ->]]].
      * destruct o, b; simpl in H; try tauto; destruct H as [<-|[]];
          exists O; split; try reflexivity; lia.
      * exists (S j). split; [exact Hj | lia].
    + intros [[|j] [Hj ->]].
      * left. simpl in Hj. injection Hj as ->.
        destruct b; simpl; left; lia.
      * right. exists j. split; [exact Hj | lia].
Qed.

(** The three buckets share out the entries: their sizes add up to the
    number of entries. *)
Lemma positions_share_out (i : Z) (outcome : list bucket) :
  (List.length (positions Created i outcome)
   + List.length (positions Failed i outcome)
   + List.length (positions Skipped i outcome))%nat
  = List.length outcome.
Proof.
  revert i. induction outcome as [|o outcome IH]; intros i.
  - reflexivity.
  - specialize (IH (i + 1)). destruct o; simpl; lia.
Qed.

(** The positions of a bucket increase. *)
Lemma positions_increase (b : bucket) (outcome : list bucket) :
  forall i : Z, StronglySorted Z.lt (positions b i outcome).
Proof.
  induction outcome as [|o outcome IH]; intros i; simpl.
  - constructor.
  - destruct (bucket_eqb o b); [|apply IH].
    constructor; [apply IH|].
    apply Forall_forall. intros k Hk.
    apply positions_spec in Hk. destruct Hk as [j [_ ->]]. lia.
Qed.

(** The tally of a batch of records grows by the number of entries. *)
Lemma batch_of_records_tally (svc : Service) (jira : DocToJira)
    (user_stories : list pyval) (i : Z) (st : BatchState) :
  forallb is_dict user_stories = true ->
  snd (for_entries svc jira i user_stories st) = Ok tt
  /\ tally (results (fst (for_entries svc jira i user_stories st)))
     = (tally (results st) + List.length user_stories)%nat.
Proof.
  intros Hall.
  destruct (batch_of_records_is_complete svc jira user_stories Hall i st)
    as (outcome & st' & Hrun & Hlen & Hc & Hf & Hs).
  rewrite Hrun. split; [reflexivity|]. cbn [fst].
  apply (f_equal (@List.length Z)) in Hc, Hf, Hs.
  unfold created_entries, failed_entries, skipped_entries in Hc, Hf, Hs.
  rewrite length_app, !length_map in Hc, Hf, Hs.
  pose proof (positions_share_out i outcome). unfold tally. lia.
Qed.

(** *** A batch with an entry that is not a record *)

(** An entry that is not a record ends the loop: [entry.get] raises in the
    body, and raises again in the handler that was to record the failure. *)
Lemma non_record_entry_ends_the_loop (svc : Service) (jira : DocToJira)
    (i : Z) (entry : pyval) (rest : list pyval) (st : BatchState) :
  is_dict entry = false ->
  for_entries svc jira i (entry :: rest) st
  = (st, Raise (no_attribute entry "get")).
Proof.
  intros Hentry. cbn [for_entries].
  unfold bind, process_entry, try_except, bind, lift_result.
  destruct entry; try discriminate; reflexivity.
Qed.

(** C3 at the batch [[5, {"user_story": "A", "deliverables": "B"}]].  The
    loop stops at the first entry with an [AttributeError] and the buckets as
    they were, for every server and client: the second entry is not attempted
    and the tally misses both entries.  [run_jira_from_json] then returns
    three empty buckets for a batch of two. *)
Theorem batch_with_a_non_record_entry_is_abandoned
    (svc : Service) (jira : DocToJira) (st : BatchState) :
  for_entries svc jira 1 Examples.batch_with_number st
  = (st, Raise (Exception AttributeError
                  "'int' object has no attribute 'get'" None))
  /\ tally (results (fst (for_entries svc jira 1 Examples.batch_with_number st)))
     = tally (results st)
  /\ snd (run_jira_from_json (Examples.failing_first 0)
            (Some "https://test.atlassian.net") (Some "test@example.com")
            (Some "test-token-123") (Some "TEST")
            (Ok (PList Examples.batch_with_number)) [])
     = empty_results
  /\ List.length Examples.batch_with_number = 2%nat.
Proof.
  assert (H : for_entries svc jira 1 Examples.batch_with_number st
              = (st, Raise (Exception AttributeError
                              "'int' object has no attribute 'get'" None)))
    by (apply non_record_entry_ends_the_loop; reflexivity).
  rewrite H. repeat split.
Qed.

(** The batch of the specification against a server that accepts every
    issue: entry 1 created, entry 2 skipped, entry 3 created as a ["Bug"]. *)
Example batch_of_three_records :
  run_jira_from_json (Examples.failing_first 0)
    (Some "https://test.atlassian.net") (Some "test@example.com")
    (Some "test-token-123") (Some "TEST")
    (Ok (PList Examples.batch_of_three)) []
  = ([ CallJIRA (Some "https://test.atlassian.net")
         (Some "test@example.com", Some "test-token-123");
       CallCurrentUser (Handle 7);
       CallProject (Handle 7) (Some "TEST");
       CallCreateIssue (Handle 7)
         {| f_project_key := Some "TEST"; f_summary := "A";
            f_description := "B"; f_issuetype_name := "Story" |};
       CallCreateIssue (Handle 7)
         {| f_project_key := Some "TEST"; f_summary := "D";
            f_description := "E"; f_issuetype_name := "Bug" |} ],
     {| created_issues :=
          [ {| created_entry := 1; created_issue_key := Some "TEST-456";
               created_summary := "A" |};
            {| created_entry := 3; created_issue_key := Some "TEST-456";
               created_summary := "D" |} ];
        failed_issues := [];
        skipped_issues :=
          [ {| skipped_entry := 2;
               skipped_reason := "Missing or empty 'user_story'" |} ] |}).
Proof. reflexivity. Qed.

(* ------------------------------------------------------------------------- *)
(** * More of the client and of the drivers *)

Lemma sleeps_of_sleeps (l : list Q) : sleeps (map Sleep l) = l.
Proof. induction l as [|q l IH]; simpl; [reflexivity | rewrite IH; reflexivity]. Qed.

Lemma count_of_sleeps (p : event -> bool) (l : list Q) :
  (forall q, p (Sleep q) = false) -> count p (map Sleep l) = O.
Proof.
  intros Hs. unfold count.
  induction l as [|q l IH]; simpl; [reflexivity | rewrite Hs; exact IH].
Qed.

(** A run of [k] retried attempts and a last one is bounded. *)
Lemma retried_run_is_bounded (tr tr' : Trace) (call : event)
    (is_call : event -> bool) (d : Q) (n k : nat) :
  is_call call = true -> (forall q, is_call (Sleep q) = false) ->
  is_sleep call = false ->
  (k <= n)%nat ->
  tr' = tr ++ retried call d 0 k ++ [call] ->
  bounded_run tr tr' is_call d n.
Proof.
  intros Hc Hs Hn Hk Hrun. exists (retried call d 0 k ++ [call]), k.
  assert (Hsl : sleeps (retried call d 0 k ++ [call]) = delays d k)
    by (apply sleeps_retried; exact Hn).
  repeat split.
  - exact Hrun.
  - exact Hk.
  - rewrite count_retried by assumption. lia.
  - exact Hsl.
  - rewrite Hsl. apply delays_doubling.
Qed.

(** One attempt of the issue creation loop on a client that was not
    connected: it fails before any call. *)
Lemma unconnected_step (svc : Service) (self : DocToJira)
    (fields : issue_fields) (attempt : Z) (rest : list Z) (tr : Trace) :
  jira_client self = None ->
  create_jira_issue_loop svc self fields (attempt :: rest) tr
  = if attempt <? max_retries self
    then bind (pause (retry_delay self) attempt)
           (fun _ => create_jira_issue_loop svc self fields rest) tr
    else (tr, Raise (Exception JiraIssueCreationError
                       (terminal_message "Failed to create Jira issue after "
                          (max_retries self + 1) (no_client "create_issue"))
                       (Some (no_client "create_issue")))).
Proof.
  intros Hc. cbn [create_jira_issue_loop].
  unfold try_except. unfold bind at 1. unfold create_issue, on_client.
  rewrite Hc. unfold raise at 1.
  destruct (attempt <? max_retries self); [|reflexivity].
  apply handler_pauses.
Qed.

(** The issue creation loop on a client that was not connected: every
    attempt fails before any call, so the loop only sleeps. *)
Lemma unconnected_loop (svc : Service) (self : DocToJira)
    (fields : issue_fields) (n : nat) :
  jira_client self = None ->
  max_retries self = Z.of_nat n ->
  forall (len first : nat) (tr : Trace),
    (first + len = S n)%nat -> (0 < len)%nat ->
    exists k : nat,
      (first + k <= n)%nat
      /\ fst (create_jira_issue_loop svc self fields
                (map Z.of_nat (seq first len)) tr)
         = tr ++ map Sleep (map (delay_at (retry_delay self)) (seq first k))
      /\ loop_outcome JiraIssueCreationError "Failed to create Jira issue after "
           n (retry_delay self) (first + k)
           (Raise (no_client "create_issue") : result string)
           (snd (create_jira_issue_loop svc self fields
                   (map Z.of_nat (seq first len)) tr)).
Proof.
  intros Hc Hn. induction len as [|len IH]; intros first tr Hlen Hpos; [lia|].
  cbn [seq map]. rewrite (unconnected_step svc self fields _ _ tr Hc), Hn.
  destruct (Nat.lt_ge_cases first n) as [Hlt|Hge].
  - replace (Z.of_nat first <? Z.of_nat n) with true
      by (symmetry; apply Z.ltb_lt; lia).
    unfold bind.
    destruct (pause_cases (retry_delay self) first tr) as [Hp | (x & Hp & Hx)];
      rewrite Hp.
    + destruct (IH (S first) (tr ++ [Sleep (delay_at (retry_delay self) first)])
                  ltac:(lia) ltac:(lia))
        as (k & Hk & Hfst & Hout).
      exists (S k). split; [lia|].
      replace (first + S k)%nat with (S first + k)%nat by lia.
      cbn [seq map]. rewrite <- app_assoc in Hfst. split; [exact Hfst | exact Hout].
    + exists O. rewrite Nat.add_0_r. simpl. rewrite app_nil_r.
      repeat split; [lia|].
      apply (Interrupted _ _ _ _ _ _ (no_client "create_issue") x);
        [reflexivity | exact Hlt | exact Hx].
  - assert (first = n) as -> by lia.
    rewrite Z.ltb_irrefl.
    exists O. rewrite Nat.add_0_r. simpl map. rewrite app_nil_r.
    repeat split; [lia|].
    apply (Exhausted _ _ _ _ _ _ (no_client "create_issue")); reflexivity.
Qed.

Lemma unconnected_create (svc : Service) (self : DocToJira)
    (summary description issuetype : string) (tr : Trace) (n : nat) :
  jira_client self = None ->
  max_retries self = Z.of_nat n ->
  _validate_issue_input summary description issuetype = Ok tt ->
  exists k : nat,
    (k <= n)%nat
    /\ fst (create_jira_issue svc self summary description issuetype tr)
       = tr ++ map Sleep (delays (retry_delay self) k)
    /\ loop_outcome JiraIssueCreationError "Failed to create Jira issue after "
         n (retry_delay self) k
         (Raise (no_client "create_issue") : result string)
         (snd (create_jira_issue svc self summary description issuetype tr)).
Proof.
  intros Hc Hn Hv. rewrite create_after_validation by exact Hv.
  rewrite Hn. unfold PyStr.range.
  replace (Z.to_nat (Z.of_nat n + 1)) with (S n) by lia.
  destruct (unconnected_loop svc self
              (trimmed_fields self summary description issuetype) n Hc Hn
              (S n) 0%nat tr ltac:(lia) ltac:(lia))
    as (k & Hk & Hfst & Hout).
  exists k. repeat split; [lia | exact Hfst | exact Hout].
Qed.


(** A negative delay that [time.sleep] converts is refused. *)
Lemma pause_negative (d : Q) :
  (d < 0)%Q -> (sleep_floor <= d)%Q ->
  snd (pause d 0 []) = Raise sleep_refused.
Proof.
  intros Hneg Hfloor. unfold pause, bind, lift_result, backoff.
  change (1024 <=? 0) with false. cbv iota.
  assert (Hd : ((d * inject_Z (2 ^ 0)) == d)%Q)
    by (change (inject_Z (2 ^ 0)) with 1%Q; apply Qmult_1_r).
  unfold sleep.
  assert (H1 : Qle_bool sleep_limit (d * inject_Z (2 ^ 0)) = false).
  { destruct (Qle_bool sleep_limit (d * inject_Z (2 ^ 0))) eqn:E; [|reflexivity].
    apply Qle_bool_iff in E. rewrite Hd in E. exfalso.
    apply (Qlt_not_le _ _ Hneg). apply Qle_trans with sleep_limit; [|exact E].
    vm_compute. discriminate. }
  assert (H2 : Qle_bool sleep_floor (d * inject_Z (2 ^ 0)) = true)
    by (apply Qle_bool_iff; rewrite Hd; exact Hfloor).
  assert (H3 : Qle_bool 0 (d * inject_Z (2 ^ 0)) = false).
  { destruct (Qle_bool 0 (d * inject_Z (2 ^ 0))) eqn:E; [|reflexivity].
    apply Qle_bool_iff in E. rewrite Hd in E. exfalso.
    exact (Qlt_not_le _ _ Hneg E). }
  rewrite H1, H2, H3. reflexivity.
Qed.

(** X1.  Whatever the server answers, with [max_retries = n >= 0],
    [_connect_to_jira] makes at most [n + 1] connection attempts and
    [create_jira_issue] at most [n + 1] submissions, on every instance and
    for every request, and the delays slept are an initial part
    [d, 2d, 4d, ..., d * 2^(k-1)] of the doubling sequence, [k <= n]. *)
Theorem retries_are_bounded_for_any_server :
  (forall (svc : Service) (self : DocToJira) (tr : Trace) (n : nat),
      max_retries self = Z.of_nat n ->
      bounded_run tr (fst (_connect_to_jira svc self tr)) is_connect
        (retry_delay self) n)
  /\ (forall (svc : Service) (self : DocToJira)
             (summary description issuetype : string) (tr : Trace) (n : nat),
         max_retries self = Z.of_nat n ->
         bounded_run tr
           (fst (create_jira_issue svc self summary description issuetype tr))
           is_create (retry_delay self) n).
Proof.
  split.
  - intros svc self tr n Hn.
    destruct (connect_shape svc self tr n Hn) as (k & Hk & Hfst & _).
    apply (retried_run_is_bounded tr _ (connect_call self) is_connect _ n k);
      try reflexivity; assumption.
  - intros svc self summary description issuetype tr n Hn.
    destruct (_validate_issue_input summary description issuetype)
      as [[]|e] eqn:Hv.
    + destruct (jira_client self) as [h|] eqn:Hc.
      * destruct (create_shape svc self h summary description issuetype tr n
                    Hn Hc Hv) as (k & Hk & Hfst & _).
        apply (retried_run_is_bounded tr _
                 (create_call self h summary description issuetype)
                 is_create _ n k); try reflexivity; assumption.
      * destruct (unconnected_create svc self summary description issuetype tr n
                    Hc Hn Hv) as (k & Hk & Hfst & _).
        exists (map Sleep (delays (retry_delay self) k)), k.
        rewrite sleeps_of_sleeps, count_of_sleeps by reflexivity.
        repeat split; [exact Hfst | exact Hk | lia | apply delays_doubling].
    + exists [], O. unfold create_jira_issue, bind, lift_result. rewrite Hv.
      simpl. rewrite app_nil_r. unfold count. simpl.
      repeat split; try reflexivity; try lia. constructor.
Qed.

Lemma retries_are_bounded_witness :
  bounded_run []
    (fst (_connect_to_jira (Examples.failing_first 1) (Examples.client 3 1) []))
    is_connect 1 3
  /\ bounded_run []
       (fst (create_jira_issue (Examples.failing_first 1) (Examples.client 3 1)
               "Test Issue" "Test Description" "Bug" []))
       is_create 1 3.
Proof.
  destruct retries_are_bounded_for_any_server as [Hconnect Hcreate].
  split.
  - apply (Hconnect (Examples.failing_first 1) (Examples.client 3 1) [] 3%nat).
    reflexivity.
  - apply (Hcreate (Examples.failing_first 1) (Examples.client 3 1)
             "Test Issue" "Test Description" "Bug" [] 3%nat).
    reflexivity.
Defined.



(** X3.  With a negative [max_retries] no attempt is made at all:
    [_connect_to_jira] returns [None] and a valid request makes
    [create_jira_issue] return [None], both without a call, a sleep or an
    error. *)
Theorem negative_max_retries_makes_no_attempt
    (svc : Service) (self : DocToJira)
    (summary description issuetype : string) (tr : Trace) :
  max_retries self < 0 ->
  _validate_issue_input summary description issuetype = Ok tt ->
  _connect_to_jira svc self tr = (tr, Ok None)
  /\ create_jira_issue svc self summary description issuetype tr = (tr, Ok None).
Proof.
  intros Hn Hv.
  assert (Hr : PyStr.range (max_retries self + 1) = []).
  { unfold PyStr.range.
    replace (Z.to_nat (max_retries self + 1)) with O by lia. reflexivity. }
  split.
  - unfold _connect_to_jira. rewrite Hr. reflexivity.
  - rewrite create_after_validation by exact Hv. rewrite Hr. reflexivity.
Qed.

Lemma negative_max_retries_witness :
  _connect_to_jira Examples.failing (Examples.client (-1) 1) [] = ([], Ok None)
  /\ create_jira_issue Examples.failing (Examples.client (-1) 1)
       "Test Issue" "Test Description" "Bug" [] = ([], Ok None).
Proof.
  apply (negative_max_retries_makes_no_attempt
           Examples.failing (Examples.client (-1) 1)
           "Test Issue" "Test Description" "Bug" []); reflexivity.
Defined.

(** X4.  With at least one retry allowed and a negative [retry_delay]
    that [time.sleep] converts, one of [-(2^63 + 1024)] nanoseconds at the
    least, a first attempt that fails is not retried: [time.sleep] refuses
    the delay, and its [ValueError] leaves the loop after one call, in place
    of the [JiraConnectionError] or [JiraIssueCreationError].  This holds of
    the connection for every instance, and of a valid request on a connected
    client. *)
Theorem negative_delay_stops_at_the_first_failure :
  (forall (svc : Service) (self : DocToJira) (tr : Trace) (e : exn),
      1 <= max_retries self ->
      (retry_delay self < 0)%Q ->
      (sleep_floor <= retry_delay self)%Q ->
      connect_answer svc self tr = Raise e ->
      _connect_to_jira svc self tr
      = (tr ++ [connect_call self], Raise sleep_refused))
  /\ (forall (svc : Service) (self : DocToJira) (h : JIRA)
             (summary description issuetype : string) (tr : Trace) (e : exn),
         1 <= max_retries self ->
         (retry_delay self < 0)%Q ->
         (sleep_floor <= retry_delay self)%Q ->
         jira_client self = Some h ->
         _validate_issue_input summary description issuetype = Ok tt ->
         create_answer svc self h summary description issuetype tr = Raise e ->
         create_jira_issue svc self summary description issuetype tr
         = (tr ++ [create_call self h summary description issuetype],
            Raise sleep_refused)).
Proof.
  split.
  - intros svc self tr e Hn Hneg Hfloor He.
    assert (Hmax : max_retries self = Z.of_nat (Z.to_nat (max_retries self)))
      by lia.
    assert (Hlast : connect_answer svc self
                      (history tr (connect_call self) (retry_delay self) 0)
                    = Raise e)
      by (unfold history; simpl; rewrite app_nil_r; exact He).
    apply (connect_interrupted svc self tr (Z.to_nat (max_retries self)) 0
             e sleep_refused Hmax ltac:(lia)
             (fun j Hj => ltac:(lia)) (fun j Hj => ltac:(lia)) Hlast
             (pause_negative _ Hneg Hfloor)).
  - intros svc self h summary description issuetype tr e
      Hn Hneg Hfloor Hc Hv He.
    assert (Hmax : max_retries self = Z.of_nat (Z.to_nat (max_retries self)))
      by lia.
    assert (Hlast : create_answer svc self h summary description issuetype
                      (history tr
                         (create_call self h summary description issuetype)
                         (retry_delay self) 0)
                    = Raise e)
      by (unfold history; simpl; rewrite app_nil_r; exact He).
    apply (create_interrupted svc self h summary description issuetype tr
             (Z.to_nat (max_retries self)) 0 e sleep_refused Hmax ltac:(lia)
             Hc Hv (fun j Hj => ltac:(lia)) (fun j Hj => ltac:(lia)) Hlast
             (pause_negative _ Hneg Hfloor)).
Qed.

Lemma negative_delay_witness :
  _connect_to_jira Examples.failing (Examples.client 3 (-1)) []
  = ([] ++ [connect_call (Examples.client 3 (-1))], Raise sleep_refused)
  /\ create_jira_issue Examples.failing (Examples.client 3 (-1))
       "Test Issue" "Test Description" "Bug" []
     = ([] ++ [create_call (Examples.client 3 (-1)) (Handle 0)
                 "Test Issue" "Test Description" "Bug"],
        Raise sleep_refused).
Proof.
  assert (Hn : 1 <= max_retries (Examples.client 3 (-1)))
    by (cbn [max_retries Examples.client]; lia).
  assert (Hfloor : (sleep_floor <= retry_delay (Examples.client 3 (-1)))%Q)
    by discriminate.
  destruct negative_delay_stops_at_the_first_failure as [Hconnect Hcreate].
  split.
  - apply (Hconnect Examples.failing (Examples.client 3 (-1)) []
             (Examples.failure "Connection failed") Hn eq_refl Hfloor eq_refl).
  - apply (Hcreate Examples.failing (Examples.client 3 (-1)) (Handle 0)
             "Test Issue" "Test Description" "Bug" []
             (Examples.failure "Persistent error")
             Hn eq_refl Hfloor eq_refl eq_refl eq_refl).
Defined.

(** ** Construction and probes *)

Lemma configuration_accepted (self : DocToJira) :
  falsy (jira_base_url self) || falsy (jira_email self)
  || falsy (jira_api_token self) || falsy (jira_project_key self) = false ->
  _validate_configuration self = Ok tt.
Proof.
  unfold _validate_configuration, append_if.
  destruct (falsy (jira_base_url self)), (falsy (jira_email self)),
    (falsy (jira_api_token self)), (falsy (jira_project_key self));
    try discriminate.
  reflexivity.
Qed.

Lemma configuration_refused (self : DocToJira) :
  falsy (jira_base_url self) || falsy (jira_email self)
  || falsy (jira_api_token self) || falsy (jira_project_key self) = true ->
  exists e, _validate_configuration self = Raise e
            /\ exn_cls e = JiraConfigurationError.
Proof.
  unfold _validate_configuration, append_if.
  destruct (falsy (jira_base_url self)), (falsy (jira_email self)),
    (falsy (jira_api_token self)), (falsy (jira_project_key self));
    try discriminate; intros _; eexists; split; reflexivity.
Qed.

(** X5.  [DocToJira(...)] validates the configuration before it connects.
    When one of the four credentials is unset or empty it raises the
    [JiraConfigurationError] and the server is not contacted; otherwise it
    is [_connect_to_jira], and the instance returned keeps the settings and
    the credentials and holds the connection made. *)
Theorem client_is_built_only_from_a_complete_configuration
    (svc : Service) (max_retries : Z) (retry_delay : Q)
    (url email token project : option string) (tr : Trace) :
  if falsy url || falsy email || falsy token || falsy project
  then
    exists e,
      __init__ svc max_retries retry_delay url email token project tr
      = (tr, Raise e)
      /\ exn_cls e = JiraConfigurationError
  else
    __init__ svc max_retries retry_delay url email token project tr
    = match
        _connect_to_jira svc
          (client_with max_retries retry_delay url email token project None) tr
      with
      | (tr', Ok client) =>
          (tr', Ok (client_with max_retries retry_delay
                      url email token project client))
      | (tr', Raise e) => (tr', Raise e)
      end.
Proof.
  destruct (falsy url || falsy email || falsy token || falsy project) eqn:Hf.
  - destruct (configuration_refused
                (client_with max_retries retry_delay url email token project None) Hf)
      as (e & He & Hcls).
    exists e. split; [|exact Hcls].
    unfold __init__, bind, lift_result. fold (client_with max_retries retry_delay url email token project None).
    rewrite He. reflexivity.
  - pose proof (configuration_accepted
                  (client_with max_retries retry_delay url email token project None) Hf)
      as Hok.
    unfold __init__, bind, lift_result.
    fold (client_with max_retries retry_delay url email token project None).
    rewrite Hok.
    destruct (_connect_to_jira svc
                (client_with max_retries retry_delay url email token project None) tr)
      as [tr' [client|e]]; reflexivity.
Qed.

(** X6.  The two probes are not retried and never sleep.  On a connected
    client [test_connection] makes the one call [current_user()] and
    [get_project_info] the one call [project(key)] with the configured
    project key; on a client without a connection they answer [False] and
    [None] without contacting the server. *)
Theorem probes_make_one_call (svc : Service) (self : DocToJira) (tr : Trace) :
  match jira_client self with
  | Some h =>
      fst (test_connection svc self tr) = tr ++ [CallCurrentUser h]
      /\ fst (get_project_info svc self tr)
         = tr ++ [CallProject h (jira_project_key self)]
  | None =>
      test_connection svc self tr = (tr, Ok false)
      /\ get_project_info svc self tr = (tr, Ok None)
  end.
Proof.
  unfold test_connection, get_project_info, try_except, bind,
    current_user, project, on_client.
  destruct (jira_client self) as [h|].
  - split.
    + destruct (svc_current_user svc tr h); reflexivity.
    + destruct (svc_project svc tr h (jira_project_key self)); reflexivity.
  - split; reflexivity.
Qed.

(** ** White space and the validator *)

Lemma lstrip_fixed (t : string) :
  starts_with_space t = false -> PyStr.lstrip t = t.
Proof. destruct t as [|c t]; simpl; [reflexivity | intros ->; reflexivity]. Qed.

Lemma rstrip_fixed (t : string) :
  ends_with_space t = false -> PyStr.rstrip t = t.
Proof.
  induction t as [|c t IH]; [reflexivity|].
  destruct t as [|c' t'].
  - simpl. intros ->. reflexivity.
  - intros H. change (ends_with_space (String c' t') = false) in H.
    specialize (IH H).
    change (PyStr.rstrip (String c (String c' t')))
      with (match PyStr.rstrip (String c' t') with
            | EmptyString =>
                if PyStr.isspace c then EmptyString else String c EmptyString
            | r => String c r
            end).
    rewrite IH. reflexivity.
Qed.

(** Trimming twice is trimming once. *)
Lemma strip_idempotent (s : string) :
  PyStr.strip (PyStr.strip s) = PyStr.strip s.
Proof.
  destruct (strip_trimmed s) as (lead & trail & _ & _ & _ & Hstart & Hend).
  unfold PyStr.strip at 1.
  rewrite lstrip_fixed by exact Hstart. apply rstrip_fixed. exact Hend.
Qed.

Lemma empty_or_blank_strip (s : string) :
  PyStr.is_empty (PyStr.strip s) || PyStr.is_empty (PyStr.strip (PyStr.strip s))
  = PyStr.is_empty s || PyStr.is_empty (PyStr.strip s).
Proof.
  rewrite strip_idempotent, empty_or_blank, strip_empty_iff_blank.
  apply orb_diag.
Qed.

Lemma validation_ignores_surrounding_space (summary description issuetype : string) :
  _validate_issue_input (PyStr.strip summary) (PyStr.strip description)
    (PyStr.strip issuetype)
  = _validate_issue_input summary description issuetype.
Proof.
  unfold _validate_issue_input.
  rewrite !empty_or_blank_strip, !strip_idempotent. reflexivity.
Qed.

(** X7.  [create_jira_issue] does not see white space around its inputs:
    called with the trimmed summary, description and issue type it validates,
    submits, retries and answers as with the raw ones.  The trimming the
    batch loop does before the call changes nothing. *)
Theorem create_jira_issue_ignores_surrounding_space
    (svc : Service) (self : DocToJira)
    (summary description issuetype : string) (tr : Trace) :
  create_jira_issue svc self (PyStr.strip summary) (PyStr.strip description)
    (PyStr.strip issuetype) tr
  = create_jira_issue svc self summary description issuetype tr.
Proof.
  unfold create_jira_issue, bind, lift_result.
  rewrite validation_ignores_surrounding_space, !strip_idempotent.
  reflexivity.
Qed.

Lemma validation_accepted (summary description issuetype : string) :
  _validate_issue_input summary description issuetype = Ok tt ->
  PyStr.blank summary = false
  /\ PyStr.len (PyStr.strip summary) <= 255
  /\ PyStr.blank description = false
  /\ PyStr.blank issuetype = false.
Proof.
  unfold _validate_issue_input, append_if.
  rewrite !empty_or_blank, Z.gtb_ltb.
  destruct (PyStr.blank summary); [|
    destruct (Z.ltb_spec 255 (PyStr.len (PyStr.strip summary)))];
    destruct (PyStr.blank description), (PyStr.blank issuetype);
    try discriminate.
  intros _. repeat split. lia.
Qed.

Lemma not_blank_length (s : string) :
  PyStr.blank s = false -> 1 <= PyStr.len (PyStr.strip s).
Proof.
  rewrite <- strip_empty_iff_blank. unfold PyStr.len.
  destruct (PyStr.strip s); [discriminate|]. simpl. lia.
Qed.

(** X8.  Whatever the request and whatever the server answers, every
    submission [create_jira_issue] makes on a connected client goes to the
    client's connection and project, with a summary of 1 to 255 characters
    and a description and an issue type that are not empty; all it does
    besides is sleep. *)
Theorem every_submission_is_well_formed
    (svc : Service) (self : DocToJira) (h : JIRA)
    (summary description issuetype : string) (tr : Trace) :
  jira_client self = Some h ->
  exists new : Trace,
    fst (create_jira_issue svc self summary description issuetype tr) = tr ++ new
    /\ Forall (well_formed_submission self h) new.
Proof.
  intros Hc.
  destruct (_validate_issue_input summary description issuetype) as [[]|e] eqn:Hv.
  - rewrite create_after_validation by exact Hv.
    destruct (create_loop_calls svc self h
                (trimmed_fields self summary description issuetype)
                (PyStr.range (max_retries self + 1)) Hc tr)
      as (new & Hfst & Hall & _).
    exists new. split; [exact Hfst|].
    destruct (validation_accepted _ _ _ Hv) as (Hs & Hlen & Hd & Ht).
    eapply Forall_impl; [|exact Hall].
    intros ev [->|Hsleep].
    + cbn. repeat split; try assumption; apply not_blank_length; assumption.
    + destruct ev; try discriminate. exact I.
  - exists []. split; [|constructor].
    unfold create_jira_issue, bind, lift_result. rewrite Hv.
    simpl. rewrite app_nil_r. reflexivity.
Qed.

Lemma every_submission_is_well_formed_witness :
  exists new : Trace,
    fst (create_jira_issue (Examples.failing_first 1) (Examples.client 3 1)
           "  Test Issue " "Test Description" "Bug" [])
    = [] ++ new
    /\ Forall (well_formed_submission (Examples.client 3 1) (Handle 0)) new.
Proof.
  apply (every_submission_is_well_formed
           (Examples.failing_first 1) (Examples.client 3 1) (Handle 0)
           "  Test Issue " "Test Description" "Bug" []).
  reflexivity.
Defined.

(** ** validate_json_structure *)

(** What the comprehension over the required fields gives for a dictionary. *)
Lemma missing_fields_of_record (items : list (string * pyval)) :
  match missing_fields (PDict items) required_fields with
  | Ok [] => readable (PDict items) = true /\ complete (PDict items) = true
  | Ok (_ :: _) => readable (PDict items) = true /\ complete (PDict items) = false
  | Raise _ => readable (PDict items) = false
  end.
Proof.
  unfold readable, complete, required_fields, missing_fields, field_is_missing.
  cbn [forallb py_get bind_result].
  destruct (dict_get items "user_story" (PStr "")) as [| | | |s1| |];
    cbn [py_strip bind_result andb]; try reflexivity;
    destruct (dict_get items "deliverables" (PStr "")) as [| | | |s2| |];
    cbn [py_strip bind_result andb]; try reflexivity;
    try (destruct (PyStr.is_empty (PyStr.strip s1)); reflexivity).
  rewrite !strip_empty_iff_blank.
  destruct (PyStr.blank s1), (PyStr.blank s2); split; reflexivity.
Qed.

Lemma count_valid_entries_readable (data : list pyval) :
  forallb readable data = true ->
  forall valid_entries : Z,
    count_valid_entries data valid_entries
    = Ok (valid_entries + Z.of_nat (List.length (filter complete data))).
Proof.
  induction data as [|entry rest IH]; intros Hall v.
  - simpl. f_equal. lia.
  - cbn [forallb] in Hall. apply andb_prop in Hall. destruct Hall as [He Hr].
    cbn [count_valid_entries filter].
    destruct entry as [| | | | | |items];
      try (cbn [is_dict negb complete]; apply IH; exact Hr).
    cbn [is_dict negb]. pose proof (missing_fields_of_record items) as Hm.
    destruct (missing_fields (PDict items) required_fields) as [[|f fs]|e];
      cbn [bind_result].
    + destruct Hm as [_ ->]. rewrite IH by exact Hr. cbn [List.length].
      f_equal. lia.
    + destruct Hm as [_ ->]. apply IH. exact Hr.
    + congruence.
Qed.

Lemma count_valid_entries_unreadable (data : list pyval) :
  forallb readable data = false ->
  forall valid_entries : Z,
    is_ok (count_valid_entries data valid_entries) = false.
Proof.
  induction data as [|entry rest IH]; intros Hall v.
  - discriminate.
  - cbn [forallb] in Hall. cbn [count_valid_entries].
    destruct entry as [| | | | | |items];
      try (cbn [is_dict negb]; apply IH; exact Hall).
    cbn [is_dict negb]. pose proof (missing_fields_of_record items) as Hm.
    destruct (missing_fields (PDict items) required_fields) as [[|f fs]|e];
      cbn [bind_result].
    + destruct Hm as [Hr _]. rewrite Hr in Hall. apply IH. exact Hall.
    + destruct Hm as [Hr _]. rewrite Hr in Hall. apply IH. exact Hall.
    + reflexivity.
Qed.

Lemma some_complete (data : list pyval) :
  (Z.of_nat (List.length (filter complete data)) >? 0) = existsb complete data.
Proof.
  induction data as [|entry rest IH]; [reflexivity|].
  cbn [filter existsb]. destruct (complete entry); cbn [orb List.length].
  - apply Z.gtb_lt. lia.
  - exact IH.
Qed.

(** X9.  [validate_json_structure] answers [True] exactly when the file
    holds a list in which every dictionary has strings (or nothing) under
    ['user_story'] and ['deliverables'] and at least one dictionary has both
    not blank.  Entries that are not dictionaries are passed over; one
    dictionary with a required field that is not a string makes the answer
    [False] whatever the other entries are; so does a file that cannot be
    loaded or does not hold a list. *)
Theorem validate_json_structure_accepts (loaded : result pyval) :
  validate_json_structure loaded
  = match loaded with
    | Ok (PList l) => forallb readable l && existsb complete l
    | _ => false
    end.
Proof.
  unfold validate_json_structure.
  destruct loaded as [data|e]; [|reflexivity].
  destruct data as [| | | | |l|]; try reflexivity.
  cbn [bind_result].
  destruct (forallb readable l) eqn:Hr.
  - rewrite count_valid_entries_readable by exact Hr.
    cbn [bind_result andb]. rewrite Z.add_0_l. apply some_complete.
  - pose proof (count_valid_entries_unreadable l Hr 0) as Hc.
    destruct (count_valid_entries l 0); [discriminate | reflexivity].
Qed.

Lemma complete_of_strings (items : list (string * pyval))
    (summary description : string) :
  py_strip (dict_get items "user_story" (PStr "")) = Ok summary ->
  py_strip (dict_get items "deliverables" (PStr "")) = Ok description ->
  complete (PDict items)
  = negb (PyStr.is_empty summary) && negb (PyStr.is_empty description).
Proof.
  unfold complete, required_fields. cbn [forallb].
  destruct (dict_get items "user_story" (PStr "")) as [| | | |s1| |];
    try discriminate.
  destruct (dict_get items "deliverables" (PStr "")) as [| | | |s2| |];
    try discriminate.
  cbn [py_strip]. intros H1 H2. injection H1 as <-. injection H2 as <-.
  rewrite !strip_empty_iff_blank, andb_true_r. reflexivity.
Qed.

(** X10.  The two drivers agree on what a valid entry is.  For a dictionary
    whose three fields are strings, the batch loop hands the entry to
    [create_jira_issue] exactly when [validate_json_structure] counts it as
    valid; an entry it does not count is skipped, with no call into the
    client. *)
Theorem valid_entries_are_the_submitted_ones
    (svc : Service) (jira : DocToJira) (i : Z)
    (items : list (string * pyval)) (st : BatchState)
    (summary description issuetype : string) :
  py_strip (dict_get items "user_story" (PStr "")) = Ok summary ->
  py_strip (dict_get items "deliverables" (PStr "")) = Ok description ->
  py_strip (dict_get items "issue_type" (PStr "Story")) = Ok issuetype ->
  if complete (PDict items)
  then
    trace (fst (process_entry svc jira i (PDict items) st))
    = fst (create_jira_issue svc jira summary description issuetype (trace st))
    /\ skipped_issues (results (fst (process_entry svc jira i (PDict items) st)))
       = skipped_issues (results st)
  else
    trace (fst (process_entry svc jira i (PDict items) st)) = trace st
    /\ skipped_entries (results (fst (process_entry svc jira i (PDict items) st)))
       = skipped_entries (results st) ++ [i].
Proof.
  intros Hs Hd Ht.
  rewrite (complete_of_strings items summary description Hs Hd).
  rewrite (process_entry_of_strings svc jira i items st _ _ _ Hs Hd Ht).
  unfold entry_outcome, skipped_entries. cbn [fst].
  destruct (PyStr.is_empty summary); cbn [negb andb].
  - cbn. rewrite map_app. split; reflexivity.
  - destruct (PyStr.is_empty description); cbn [negb].
    + cbn. rewrite map_app. split; reflexivity.
    + destruct (create_jira_issue svc jira summary description issuetype (trace st))
        as [tr' [issue_key|e]]; split; reflexivity.
Qed.

Lemma valid_entries_are_the_submitted_ones_witness :
  trace (fst (process_entry (Examples.failing_first 0) (Examples.client 3 1) 1
                (PDict [("user_story", PStr " A "); ("deliverables", PStr "B")])
                Examples.no_results))
  = fst (create_jira_issue (Examples.failing_first 0) (Examples.client 3 1)
           "A" "B" "Story" [])
  /\ skipped_issues
       (results
          (fst (process_entry (Examples.failing_first 0) (Examples.client 3 1) 1
                  (PDict [("user_story", PStr " A "); ("deliverables", PStr "B")])
                  Examples.no_results)))
     = [].
Proof.
  exact (valid_entries_are_the_submitted_ones
           (Examples.failing_first 0) (Examples.client 3 1) 1
           [("user_story", PStr " A "); ("deliverables", PStr "B")]
           Examples.no_results "A" "B" "Story" eq_refl eq_refl eq_refl).
Defined.

(** ** The batch and the two drivers *)

(** X11.  The batch loop works through the dictionaries in front of the
    first entry that is not a dictionary, and stops there: that entry and
    all the entries after it are recorded in no bucket, and the
    [AttributeError] of [entry.get] leaves the loop. *)
Theorem batch_stops_at_the_first_non_record
    (svc : Service) (jira : DocToJira) (before : list pyval) (entry : pyval)
    (after : list pyval) :
  forallb is_dict before = true ->
  is_dict entry = false ->
  forall (i : Z) (st : BatchState),
    for_entries svc jira i (before ++ entry :: after) st
    = (fst (for_entries svc jira i before st), Raise (no_attribute entry "get"))
    /\ tally (results (fst (for_entries svc jira i (before ++ entry :: after) st)))
       = (tally (results st) + List.length before)%nat.
Proof.
  intros Hbefore Hentry i st.
  assert (Hrun : for_entries svc jira i (before ++ entry :: after) st
                 = (fst (for_entries svc jira i before st),
                    Raise (no_attribute entry "get"))).
  { revert i st. induction before as [|b before IH]; intros i st.
    - apply non_record_entry_ends_the_loop. exact Hentry.
    - cbn [forallb] in Hbefore. apply andb_prop in Hbefore.
      destruct Hbefore as [Hb Hrest].
      destruct b as [| | | | | |items]; try discriminate.
      destruct (process_entry_of_record svc jira i items st)
        as (bk & st1 & Hp & _).
      cbn [app for_entries]. unfold bind. rewrite Hp.
      apply IH. exact Hrest. }
  split; [exact Hrun|].
  rewrite Hrun. cbn [fst].
  apply (batch_of_records_tally svc jira before i st Hbefore).
Qed.

Lemma batch_stops_witness :
  for_entries (Examples.failing_first 0) (Examples.client 3 1) 1
    ([PDict [("deliverables", PStr "C")]] ++ PInt 5 :: [PDict []])
    Examples.no_results
  = (fst (for_entries (Examples.failing_first 0) (Examples.client 3 1) 1
            [PDict [("deliverables", PStr "C")]] Examples.no_results),
     Raise (no_attribute (PInt 5) "get"))
  /\ tally (results
             (fst (for_entries (Examples.failing_first 0) (Examples.client 3 1) 1
                     ([PDict [("deliverables", PStr "C")]] ++ PInt 5 :: [PDict []])
                     Examples.no_results)))
     = (tally (results Examples.no_results) + 1)%nat.
Proof.
  apply (batch_stops_at_the_first_non_record
           (Examples.failing_first 0) (Examples.client 3 1)
           [PDict [("deliverables", PStr "C")]] (PInt 5) [PDict []]);
    reflexivity.
Defined.

Lemma count_other (p : event -> bool) (call : event) (d : Q) (k first : nat) :
  p call = false -> (forall q, p (Sleep q) = false) ->
  count p (retried call d first k ++ [call]) = O.
Proof.
  intros Hc Hs. unfold count. revert first.
  induction k as [|k IH]; intros first; simpl.
  - rewrite Hc. reflexivity.
  - rewrite Hc, Hs. apply IH.
Qed.

(** Construction submits no issue. *)
Lemma init_submits_nothing (svc : Service) (n : nat) (d : Q)
    (url email token project : option string) (tr : Trace) :
  count is_create (fst (__init__ svc (Z.of_nat n) d url email token project tr))
  = count is_create tr.
Proof.
  unfold __init__, bind, lift_result.
  fold (client_with (Z.of_nat n) d url email token project None).
  destruct (_validate_configuration
              (client_with (Z.of_nat n) d url email token project None))
    as [[]|e]; [|reflexivity].
  destruct (connect_shape svc
              (client_with (Z.of_nat n) d url email token project None) tr n
              eq_refl) as (k & _ & Hfst & _).
  destruct (_connect_to_jira svc
              (client_with (Z.of_nat n) d url email token project None) tr)
    as [tr' [client|e]]; unfold ret; cbn [fst] in *; subst tr';
    rewrite count_app, count_other by reflexivity; lia.
Qed.

Lemma probes_submit_nothing (svc : Service) (self : DocToJira) (tr : Trace) :
  count is_create (fst (test_connection svc self tr)) = count is_create tr
  /\ count is_create (fst (get_project_info svc self tr)) = count is_create tr.
Proof.
  unfold test_connection, get_project_info, try_except, bind,
    current_user, project, on_client.
  destruct (jira_client self) as [h|]; [|split; reflexivity].
  split.
  - destruct (svc_current_user svc tr h); cbn -[count];
      rewrite count_app; unfold count; simpl; lia.
  - destruct (svc_project svc tr h (jira_project_key self)); cbn -[count];
      rewrite count_app; unfold count; simpl; lia.
Qed.

Lemma get_project_info_returns (svc : Service) (self : DocToJira) (tr : Trace) :
  exists info, snd (get_project_info svc self tr) = Ok info.
Proof.
  unfold get_project_info, try_except, bind.
  destruct (project svc self (jira_project_key self) tr) as [tr1 [p|e]];
    eexists; reflexivity.
Qed.

Lemma test_connection_returns (svc : Service) (self : DocToJira) (tr : Trace) :
  exists b, snd (test_connection svc self tr) = Ok b.
Proof.
  unfold test_connection, try_except, bind.
  destruct (current_user svc self tr) as [tr1 [u|e]]; eexists; reflexivity.
Qed.

(** A branch of [run_jira_from_json] that returns the buckets as they were. *)
Ltac returns_nothing :=
  unfold ret, raise; cbn -[count]; split; [reflexivity | lia].

(** X12.  When the file cannot be loaded or does not hold a list,
    [run_jira_from_json] returns the three buckets empty and no issue is
    submitted, whatever the configuration and the server. *)
Theorem nothing_is_created_without_a_list
    (svc : Service) (url email token project : option string)
    (loaded : result pyval) (tr : Trace) :
  (forall l, loaded <> Ok (PList l)) ->
  snd (run_jira_from_json svc url email token project loaded tr) = empty_results
  /\ count is_create (fst (run_jira_from_json svc url email token project loaded tr))
     = count is_create tr.
Proof.
  intros Hlist.
  pose proof (init_submits_nothing svc 3 1 url email token project tr) as Hinit.
  unfold run_jira_from_json, run_jira_from_json_body, try_except, bind, on_trace.
  cbn [trace results]. change (Z.of_nat 3) with 3 in Hinit.
  destruct (__init__ svc 3 1 url email token project tr) as [tr1 [jira|e]];
    cbn [fst] in Hinit; [|returns_nothing].
  cbn [trace results].
  destruct (probes_submit_nothing svc jira tr1) as [Htest _].
  destruct (test_connection_returns svc jira tr1) as [b Hb].
  destruct (test_connection svc jira tr1) as [tr2 r2]; cbn [fst snd] in *.
  subst r2. destruct b; cbn [negb trace results]; [|returns_nothing].
  destruct (probes_submit_nothing svc jira tr2) as [_ Hinfo].
  destruct (get_project_info_returns svc jira tr2) as [info Hi].
  destruct (get_project_info svc jira tr2) as [tr3 r3]; cbn [fst snd] in *.
  subst r3. unfold lift_result.
  destruct loaded as [data|e]; [|returns_nothing].
  destruct data as [| | | | |l|]; try returns_nothing.
  exfalso. apply (Hlist l). reflexivity.
Qed.

Lemma nothing_is_created_without_a_list_witness :
  snd (run_jira_from_json (Examples.failing_first 0)
         (Some "https://test.atlassian.net") (Some "test@example.com")
         (Some "test-token-123") (Some "TEST")
         (Ok (PDict [("user_story", PStr "A")])) [])
  = empty_results
  /\ count is_create
       (fst (run_jira_from_json (Examples.failing_first 0)
               (Some "https://test.atlassian.net") (Some "test@example.com")
               (Some "test-token-123") (Some "TEST")
               (Ok (PDict [("user_story", PStr "A")])) []))
     = count is_create [].
Proof.
  apply (nothing_is_created_without_a_list (Examples.failing_first 0)
           (Some "https://test.atlassian.net") (Some "test@example.com")
           (Some "test-token-123") (Some "TEST")
           (Ok (PDict [("user_story", PStr "A")])) []).
  intros l H. discriminate H.
Defined.

(** X13.  With a credential unset or empty neither driver contacts the
    server: [run_jira_from_json] returns the three buckets empty and
    [run_jira_from_raw] returns [None], the trace being what it was. *)
Theorem drivers_need_a_complete_configuration
    (svc : Service) (url email token project : option string)
    (loaded : result pyval) (tr : Trace) :
  falsy url || falsy email || falsy token || falsy project = true ->
  run_jira_from_json svc url email token project loaded tr = (tr, empty_results)
  /\ run_jira_from_raw svc url email token project tr = (tr, None).
Proof.
  intros Hf.
  destruct (configuration_refused (client_with 3 1 url email token project None) Hf)
    as (e & He & _).
  assert (Hinit : __init__ svc 3 1 url email token project tr = (tr, Raise e)).
  { unfold __init__, bind, lift_result.
    fold (client_with 3 1 url email token project None).
    rewrite He. reflexivity. }
  split.
  - unfold run_jira_from_json, run_jira_from_json_body, try_except, bind, on_trace.
    cbn [trace results]. rewrite Hinit. reflexivity.
  - unfold run_jira_from_raw, bind. rewrite Hinit. reflexivity.
Qed.

Lemma drivers_need_a_complete_configuration_witness :
  run_jira_from_json Examples.failing
    (Some "https://test.atlassian.net") (Some "") None (Some "TEST")
    (Ok (PList Examples.batch_of_three)) []
  = ([], empty_results)
  /\ run_jira_from_raw Examples.failing
       (Some "https://test.atlassian.net") (Some "") None (Some "TEST") []
     = ([], None).
Proof.
  apply (drivers_need_a_complete_configuration Examples.failing
           (Some "https://test.atlassian.net") (Some "") None (Some "TEST")
           (Ok (PList Examples.batch_of_three)) []).
  reflexivity.
Defined.

(** X14.  A run of [run_jira_from_json] that built its client.  When the
    probe answers [True] and the file holds a list of dictionaries, every
    entry is recorded in exactly one bucket under its position counted from
    1, each bucket in input order, and the three buckets together hold as
    many entries as the list; a failing [get_project_info] does not matter.
    When the probe answers [False] the run ends there with three empty
    buckets, the file not being looked at. *)
Theorem connected_run_records_every_record
    (svc : Service) (url email token project : option string)
    (loaded : result pyval) (l : list pyval)
    (tr tr1 tr2 : Trace) (jira : DocToJira) (connected : bool) :
  __init__ svc 3 1 url email token project tr = (tr1, Ok jira) ->
  test_connection svc jira tr1 = (tr2, Ok connected) ->
  loaded = Ok (PList l) ->
  forallb is_dict l = true ->
  if connected then
    exists outcome : list bucket,
      List.length outcome = List.length l
      /\ created_entries
           (snd (run_jira_from_json svc url email token project loaded tr))
         = positions Created 1 outcome
      /\ failed_entries
           (snd (run_jira_from_json svc url email token project loaded tr))
         = positions Failed 1 outcome
      /\ skipped_entries
           (snd (run_jira_from_json svc url email token project loaded tr))
         = positions Skipped 1 outcome
      /\ tally (snd (run_jira_from_json svc url email token project loaded tr))
         = List.length l
  else
    run_jira_from_json svc url email token project loaded tr
    = (tr2, empty_results).
Proof.
  intros Hinit Htest -> Hall.
  unfold run_jira_from_json, run_jira_from_json_body, try_except, bind, on_trace.
  cbn [trace results]. rewrite Hinit. cbn [trace results]. rewrite Htest.
  destruct connected; cbn [negb]; [|reflexivity].
  cbn [trace results].
  destruct (get_project_info_returns svc jira tr2) as [info Hi].
  destruct (get_project_info svc jira tr2) as [tr3 r3]; cbn [snd] in Hi.
  subst r3. unfold lift_result.
  destruct (batch_of_records_is_complete svc jira l Hall 1
              {| trace := tr3; results := empty_results |})
    as (outcome & st' & Hrun & Hlen & Hc & Hf & Hs).
  rewrite Hrun. cbn [snd]. exists outcome.
  cbn [results empty_results created_entries failed_entries skipped_entries
       created_issues failed_issues skipped_issues map app] in Hc, Hf, Hs.
  repeat split; try assumption.
  pose proof (positions_share_out 1 outcome) as Hsum.
  rewrite <- Hc, <- Hf, <- Hs in Hsum.
  unfold created_entries, failed_entries, skipped_entries in Hsum.
  rewrite !length_map in Hsum. unfold tally. lia.
Qed.

Lemma connected_run_witness :
  exists outcome : list bucket,
    List.length outcome = List.length Examples.batch_of_three
    /\ created_entries
         (snd (run_jira_from_json (Examples.failing_first 0)
                 (Some "https://test.atlassian.net") (Some "test@example.com")
                 (Some "test-token-123") (Some "TEST")
                 (Ok (PList Examples.batch_of_three)) []))
       = positions Created 1 outcome
    /\ failed_entries
         (snd (run_jira_from_json (Examples.failing_first 0)
                 (Some "https://test.atlassian.net") (Some "test@example.com")
                 (Some "test-token-123") (Some "TEST")
                 (Ok (PList Examples.batch_of_three)) []))
       = positions Failed 1 outcome
    /\ skipped_entries
         (snd (run_jira_from_json (Examples.failing_first 0)
                 (Some "https://test.atlassian.net") (Some "test@example.com")
                 (Some "test-token-123") (Some "TEST")
                 (Ok (PList Examples.batch_of_three)) []))
       = positions Skipped 1 outcome
    /\ tally (snd (run_jira_from_json (Examples.failing_first 0)
                     (Some "https://test.atlassian.net") (Some "test@example.com")
                     (Some "test-token-123") (Some "TEST")
                     (Ok (PList Examples.batch_of_three)) []))
       = List.length Examples.batch_of_three.
Proof.
  exact (connected_run_records_every_record (Examples.failing_first 0)
           (Some "https://test.atlassian.net") (Some "test@example.com")
           (Some "test-token-123") (Some "TEST")
           (Ok (PList Examples.batch_of_three)) Examples.batch_of_three
           [] _ _ _ true eq_refl eq_refl eq_refl eq_refl).
Defined.

(** What [DocToJira()] with its default settings returns holds a
    connection. *)
Lemma default_client_is_connected (svc : Service)
    (url email token project : option string) (tr tr1 : Trace)
    (jira : DocToJira) :
  __init__ svc 3 1 url email token project tr = (tr1, Ok jira) ->
  exists h : JIRA,
    jira = client_with 3 1 url email token project (Some h).
Proof.
  unfold __init__, bind, lift_result.
  fold (client_with 3 1 url email token project None).
  destruct (_validate_configuration (client_with 3 1 url email token project None))
    as [[]|e]; [|discriminate].
  destruct (connect_shape svc (client_with 3 1 url email token project None)
              tr 3 eq_refl) as (k & _ & _ & Hout).
  destruct (_connect_to_jira svc (client_with 3 1 url email token project None) tr)
    as [tr' [client|e]]; [|discriminate].
  unfold ret. intros H. injection H as _ <-.
  cbn [snd] in Hout. inversion Hout as [v Ha Hr | |]. exists v. reflexivity.
Qed.

(** X15.  [run_jira_from_raw] returns a key only when the server created the
    issue: the last thing done is then the submission of the fixed summary,
    description and issue type ["Bug"] under the configured project key, and
    the key returned is the key of the issue the server answered with. *)
Theorem raw_run_returns_the_key_of_the_created_issue
    (svc : Service) (url email token project : option string) (tr : Trace)
    (issue_key : string) :
  snd (run_jira_from_raw svc url email token project tr) = Some issue_key ->
  exists (hist : Trace) (h : JIRA) (issue : Issue),
    fst (run_jira_from_raw svc url email token project tr)
    = hist ++ [CallCreateIssue h (raw_issue_fields project)]
    /\ svc_create_issue svc hist h (raw_issue_fields project) = Ok issue
    /\ key issue = issue_key.
Proof.
  unfold run_jira_from_raw, bind.
  destruct (__init__ svc 3 1 url email token project tr) as [tr1 [jira|e]] eqn:Hinit;
    [|discriminate].
  destruct (default_client_is_connected svc url email token project tr tr1 jira Hinit)
    as [h ->].
  assert (Hv : _validate_issue_input "Resolve Dodo bug."
                 "The Dodo in GTA Liberty City takes too much time to lift off."
                 "Bug" = Ok tt) by reflexivity.
  rewrite create_after_validation by exact Hv.
  change (trimmed_fields (client_with 3 1 url email token project (Some h))
            "Resolve Dodo bug."
            "The Dodo in GTA Liberty City takes too much time to lift off."
            "Bug")
    with (raw_issue_fields project).
  destruct (create_loop_calls svc
              (client_with 3 1 url email token project (Some h)) h
              (raw_issue_fields project)
              (PyStr.range (max_retries
                              (client_with 3 1 url email token project (Some h)) + 1))
              eq_refl tr1) as (new & _ & _ & Hkey).
  destruct (create_jira_issue_loop svc
              (client_with 3 1 url email token project (Some h))
              (raw_issue_fields project)
              (PyStr.range (max_retries
                              (client_with 3 1 url email token project (Some h)) + 1))
              tr1) as [tr2 [k|e]]; [|discriminate].
  cbn [fst snd] in *. intros ->.
  destruct (Hkey issue_key eq_refl) as (hist & issue & H1 & H2 & H3).
  exists hist, h, issue. repeat split; assumption.
Qed.

Lemma raw_run_witness :
  exists (hist : Trace) (h : JIRA) (issue : Issue),
    fst (run_jira_from_raw (Examples.failing_first 1)
           (Some "https://test.atlassian.net") (Some "test@example.com")
           (Some "test-token-123") (Some "TEST") [])
    = hist ++ [CallCreateIssue h (raw_issue_fields (Some "TEST"))]
    /\ svc_create_issue (Examples.failing_first 1) hist h
         (raw_issue_fields (Some "TEST")) = Ok issue
    /\ key issue = "TEST-456".
Proof.
  apply (raw_run_returns_the_key_of_the_created_issue (Examples.failing_first 1)
           (Some "https://test.atlassian.net") (Some "test@example.com")
           (Some "test-token-123") (Some "TEST") [] "TEST-456").
  reflexivity.
Defined.

(** *** Any batch *)

(** X16.  Whatever the entries are, the batch loop only appends to the
    three buckets, and what it appends are the positions of a leading part of
    the batch, each position in one bucket: no entry is recorded twice, and
    the tally grows by at most the number of entries. *)
Theorem batch_records_each_entry_at_most_once
    (svc : Service) (jira : DocToJira) (user_stories : list pyval) (i : Z)
    (st : BatchState) :
  exists outcome : list bucket,
    (List.length outcome <= List.length user_stories)%nat
    /\ created_entries (results (fst (for_entries svc jira i user_stories st)))
       = created_entries (results st) ++ positions Created i outcome
    /\ failed_entries (results (fst (for_entries svc jira i user_stories st)))
       = failed_entries (results st) ++ positions Failed i outcome
    /\ skipped_entries (results (fst (for_entries svc jira i user_stories st)))
       = skipped_entries (results st) ++ positions Skipped i outcome
    /\ tally (results (fst (for_entries svc jira i user_stories st)))
       = (tally (results st) + List.length outcome)%nat.
Proof.
  assert (H : exists outcome : list bucket,
            (List.length outcome <= List.length user_stories)%nat
            /\ created_entries (results (fst (for_entries svc jira i user_stories st)))
               = created_entries (results st) ++ positions Created i outcome
            /\ failed_entries (results (fst (for_entries svc jira i user_stories st)))
               = failed_entries (results st) ++ positions Failed i outcome
            /\ skipped_entries (results (fst (for_entries svc jira i user_stories st)))
               = skipped_entries (results st) ++ positions Skipped i outcome).
  { revert i st. induction user_stories as [|entry rest IH]; intros i st.
    - exists []. simpl. rewrite !app_nil_r. repeat split. lia.
    - destruct (is_dict entry) eqn:Hentry.
      + destruct entry as [| | | | | |items]; try discriminate.
        destruct (process_entry_of_record svc jira i items st)
          as (b & st1 & Hrun & Hc & Hf & Hs).
        destruct (IH (i + 1) st1) as (outcome & Hlen & Hc' & Hf' & Hs').
        exists (b :: outcome). cbn [for_entries]. unfold bind. rewrite Hrun.
        rewrite (positions_cons Created b i outcome),
          (positions_cons Failed b i outcome),
          (positions_cons Skipped b i outcome),
          Hc', Hf', Hs', Hc, Hf, Hs, <- !app_assoc.
        repeat split. simpl. lia.
      + exists []. rewrite (non_record_entry_ends_the_loop svc jira i entry rest st Hentry).
        simpl. rewrite !app_nil_r. repeat split. lia. }
  destruct H as (outcome & Hlen & Hc & Hf & Hs).
  exists outcome. repeat split; try assumption.
  pose proof (positions_share_out i outcome) as Hsum.
  apply (f_equal (@List.length Z)) in Hc, Hf, Hs.
  unfold created_entries, failed_entries, skipped_entries in Hc, Hf, Hs.
  rewrite length_app, !length_map in Hc, Hf, Hs.
  unfold tally. lia.
Qed.

Lemma create_calls_bounded (svc : Service) (self : DocToJira) (h : JIRA)
    (summary description issuetype : string) (tr : Trace) (n : nat) :
  max_retries self = Z.of_nat n ->
  jira_client self = Some h ->
  (count is_create (fst (create_jira_issue svc self summary description issuetype tr))
   <= count is_create tr + S n)%nat.
Proof.
  intros Hn Hc.
  destruct (_validate_issue_input summary description issuetype) as [[]|e] eqn:Hv.
  - destruct (create_shape svc self h summary description issuetype tr n Hn Hc Hv)
      as (k & Hk & Hfst & _).
    rewrite Hfst, count_app, count_retried by reflexivity. lia.
  - unfold create_jira_issue, bind, lift_result. rewrite Hv. cbn [fst]. lia.
Qed.

(** The trace after one entry: as it was, or as one call of
    [create_jira_issue] left it. *)
Lemma process_entry_trace (svc : Service) (jira : DocToJira) (i : Z)
    (entry : pyval) (st : BatchState) :
  trace (fst (process_entry svc jira i entry st)) = trace st
  \/ exists summary description issuetype,
       trace (fst (process_entry svc jira i entry st))
       = fst (create_jira_issue svc jira summary description issuetype (trace st)).
Proof.
  destruct (is_dict entry) eqn:Hentry.
  - destruct entry as [| | | | | |items]; try discriminate.
    unfold process_entry, try_except, bind, lift_result.
    cbn [py_get bind_result].
    destruct (py_strip (dict_get items "user_story" (PStr ""))) as [summary|e1];
      [|left; destruct (exn_cls e1); reflexivity].
    destruct (py_strip (dict_get items "deliverables" (PStr ""))) as [description|e2];
      [|left; destruct (exn_cls e2); reflexivity].
    destruct (py_strip (dict_get items "issue_type" (PStr "Story"))) as [issuetype|e3];
      [|left; destruct (exn_cls e3); reflexivity].
    destruct (PyStr.is_empty summary); [left; reflexivity|].
    destruct (PyStr.is_empty description); [left; reflexivity|].
    right. exists summary, description, issuetype. unfold on_trace.
    destruct (create_jira_issue svc jira summary description issuetype (trace st))
      as [tr' [issue_key|e]]; [reflexivity|].
    destruct (exn_cls e); reflexivity.
  - left. unfold process_entry, try_except, bind, lift_result.
    destruct entry; try discriminate; reflexivity.
Qed.

(** X17.  A batch of [m] entries makes at most [m * (max_retries + 1)]
    submissions to the server, whatever the entries hold and whatever the
    server answers. *)
Theorem batch_submissions_are_bounded
    (svc : Service) (jira : DocToJira) (h : JIRA) (n : nat)
    (user_stories : list pyval) (i : Z) (st : BatchState) :
  max_retries jira = Z.of_nat n ->
  jira_client jira = Some h ->
  (count is_create (trace (fst (for_entries svc jira i user_stories st)))
   <= count is_create (trace st) + List.length user_stories * S n)%nat.
Proof.
  intros Hn Hc. revert i st.
  induction user_stories as [|entry rest IH]; intros i st.
  - simpl. lia.
  - cbn [for_entries]. unfold bind.
    assert (Hstep : (count is_create (trace (fst (process_entry svc jira i entry st)))
                     <= count is_create (trace st) + S n)%nat).
    { destruct (process_entry_trace svc jira i entry st)
        as [-> | (s & d & t & ->)]; [lia|].
      apply (create_calls_bounded svc jira h); assumption. }
    destruct (process_entry svc jira i entry st) as [st1 [[]|e]]; cbn [fst] in *.
    + specialize (IH (i + 1) st1). cbn [List.length]. lia.
    + cbn [List.length]. lia.
Qed.

Lemma batch_submissions_are_bounded_witness :
  (count is_create
     (trace (fst (for_entries (Examples.failing_first 1) (Examples.client 3 1) 1
                    Examples.batch_of_three Examples.no_results)))
   <= count is_create (trace Examples.no_results)
      + List.length Examples.batch_of_three * 4)%nat.
Proof.
  apply (batch_submissions_are_bounded (Examples.failing_first 1)
           (Examples.client 3 1) (Handle 0) 3 Examples.batch_of_three 1
           Examples.no_results); reflexivity.
Defined.
